(** * Line search and first/second order drivers of [hw1/optimization.py]

    A shallow embedding of [LineSearchTool], [get_line_search_tool],
    [gradient_descent] and [newton].

    - Scalars are IEEE binary64 values ([PrimFloat.float]).
    - NumPy, SciPy and the clock are external libraries: every primitive the
      source calls is a field of [Libs], with a result that may raise.
    - Python objects that the source shares by reference (the arrays [x_0],
      [x_k] and the [history] dictionary) live in an explicit [state].
    - Exceptions are explicit: a computation ends in [Ok], [Raise] or, for the
      unbounded [while] loop of the Armijo rule, [Diverge] when the fuel given
      to the model is used up. *)

From Stdlib Require Import ZArith String List Lia.
From Stdlib Require Import Floats.
From stdpp Require Import base gmap strings list.

Set Warnings "-inexact-float".
Local Open Scope string_scope.

(** ** Python values and exceptions *)

Inductive exn : Type :=
| FloatingPointError
| TypeError
| ValueError
| AttributeError
| AssertionError
| OtherError (name : string).

Inductive outcome (A : Type) : Type :=
| Ok (a : A)
| Raise (e : exn)
| Diverge.
Arguments Ok {A} a.
Arguments Raise {A} e.
Arguments Diverge {A}.

(** The values that configuration entries, attributes of a tool and step
    sizes can take: [None], a float, or a string. *)
Inductive pyval : Type :=
| PyNone
| PyFloat (x : float)
| PyStr (s : string).

(** [bool(v)]: [None], [0.0] and [''] are falsy. *)
Definition truthy (v : pyval) : bool :=
  match v with
  | PyNone => false
  | PyFloat x => negb (PrimFloat.eqb x 0)
  | PyStr s => negb (String.eqb s "")
  end.

(** [v == 'literal'] for a string literal. *)
Definition py_eq_str (v : pyval) (s : string) : bool :=
  match v with
  | PyStr t => String.eqb t s
  | _ => false
  end.

(** Using a value in float arithmetic: [None] and strings are a [TypeError]. *)
Definition as_float (v : pyval) : outcome float :=
  match v with
  | PyFloat x => Ok x
  | _ => Raise TypeError
  end.

(** A one dimensional [np.array] of float64. *)
Definition vec : Type := list float.

(** What [scipy.optimize.line_search] hands back: the 6-tuple
    [(alpha, fc, gc, new_fval, old_fval, new_slope)]; [ObjNone] is the Python
    object [None] itself. *)
Record wolfe_tuple : Type := {
  wt_alpha : pyval;
  wt_fc : Z;
  wt_gc : Z;
  wt_new_fval : pyval;
  wt_old_fval : pyval;
  wt_new_slope : pyval
}.

Inductive pyobj : Type :=
| ObjNone
| ObjTuple (t : wolfe_tuple).

(** [a is None] *)
Definition is_None (a : pyobj) : bool :=
  match a with ObjNone => true | ObjTuple _ => false end.

(** [a[0]]; subscripting [None] is a [TypeError]. *)
Definition item0 (a : pyobj) : outcome pyval :=
  match a with
  | ObjNone => Raise TypeError
  | ObjTuple t => Ok (wt_alpha t)
  end.

(** ** The oracle and the libraries *)

(** The objective: stateless, reads the contents of the array it is given. *)
Record Oracle : Type := {
  func : vec -> outcome float;
  grad : vec -> outcome vec;
  hess : vec -> outcome (list vec)
}.

Record Libs : Type := {
  (** [x + y] on arrays *)
  np_add : vec -> vec -> outcome vec;
  (** [a * d] for a scalar [a] and an array [d] *)
  np_scale : float -> vec -> outcome vec;
  (** [-g] *)
  np_neg : vec -> outcome vec;
  (** [np.dot(g, d)] *)
  np_dot : vec -> vec -> outcome float;
  (** [np.linalg.norm(g)] *)
  np_norm : vec -> outcome float;
  (** [np.any(np.isnan(np.array(a).astype(np.float64)))] *)
  np_any_isnan : pyval -> outcome bool;
  (** [np.any(np.isinf(np.array(v).astype(np.float64)))] *)
  np_any_isinf : vec -> outcome bool;
  (** scalar [*], [+], [/] and [<=] *)
  f_mul : float -> float -> outcome float;
  f_add : float -> float -> outcome float;
  f_div : float -> float -> outcome float;
  f_le : float -> float -> outcome bool;
  (** [scipy.optimize.line_search(f, g, x_k, d_k, c1=, c2=)] *)
  scalar_search_wolf2 :
    (vec -> outcome float) -> (vec -> outcome vec) ->
    vec -> vec -> pyval -> pyval -> outcome pyobj;
  (** the [n]-th reading of [time.time()] *)
  time_time : nat -> float
}.

(** ** Computations without state: the error monad *)

Definition obind {A B} (c : outcome A) (k : A -> outcome B) : outcome B :=
  match c with
  | Ok a => k a
  | Raise e => Raise e
  | Diverge => Diverge
  end.

Declare Scope outcome_scope.
Delimit Scope outcome_scope with outcome.
Notation "x <- c ;; k" := (obind c (fun x => k))
  (at level 100, c at next level, right associativity) : outcome_scope.
Local Open Scope outcome_scope.

(** ** LineSearchTool *)

(** An instance is its [__dict__]: attribute name to value. *)
Abbreviation LineSearchTool := (gmap string pyval).

Definition getattr (self : LineSearchTool) (name : string) : outcome pyval :=
  match self !! name with
  | Some v => Ok v
  | None => Raise AttributeError
  end.

(** [kwargs.get(key, dflt)] *)
Definition kwargs_get (kwargs : gmap string pyval) (key : string) (dflt : pyval)
  : pyval :=
  default dflt (kwargs !! key).

Module LineSearchTool.

(** [__init__(self, method='Wolfe', **kwargs)] *)
Definition __init__ (method : pyval) (kwargs : gmap string pyval)
  : outcome LineSearchTool :=
  let self : gmap string pyval := <["_method" := method]> ∅ in
  if py_eq_str method "Wolfe" then
    let self := <["c1" := kwargs_get kwargs "c1" (PyFloat 1e-4)]> self in
    let self := <["c2" := kwargs_get kwargs "c2" (PyFloat 0.9)]> self in
    let self := <["alpha_0" := kwargs_get kwargs "alpha_0" (PyFloat 1.0)]> self in
    Ok self
  else if py_eq_str method "Armijo" then
    let self := <["c1" := kwargs_get kwargs "c1" (PyFloat 1e-4)]> self in
    let self := <["alpha_0" := kwargs_get kwargs "alpha_0" (PyFloat 1.0)]> self in
    Ok self
  else if py_eq_str method "Constant" then
    let self := <["c" := kwargs_get kwargs "c" (PyFloat 1.0)]> self in
    Ok self
  else Raise ValueError.

(** [LineSearchTool()] *)
Definition default_tool : outcome LineSearchTool :=
  __init__ (PyStr "Wolfe") ∅.

(** [cls( **options )]: the entries of the dict are the keyword arguments
    of the call. A key ['self'] collides with the instance that the call
    binds to the first parameter: [TypeError]. The entry [method], when
    present, binds the second parameter, and the others make up [kwargs]. *)
Definition call_with_dict (options : gmap string pyval) : outcome LineSearchTool :=
  match options !! "self" with
  | Some _ => Raise TypeError
  | None =>
      __init__ (kwargs_get options "method" (PyStr "Wolfe"))
        (delete "method" options)
  end.

Definition to_dict (self : LineSearchTool) : gmap string pyval := self.

Section line_search.
Variable L : Libs.
Variable self : LineSearchTool.
Variable oracle : Oracle.
Variables x_k d_k : vec.
Variable previous_alpha : pyval.
Variable display : bool.

Definition phi (a : float) : outcome float :=
  ad <- np_scale L a d_k ;;
  x <- np_add L x_k ad ;;
  func oracle x.

Definition phi_derivative (a : float) : outcome float :=
  ad <- np_scale L a d_k ;;
  x <- np_add L x_k ad ;;
  g <- grad oracle x ;;
  np_dot L g d_k.

(** [phi(0) + self.c1 * a * phi_derivative(0)], evaluated left to right. *)
Definition armijo_bound (a : float) : outcome float :=
  p0 <- phi 0 ;;
  c1v <- getattr self "c1" ;;
  c1 <- as_float c1v ;;
  c1a <- f_mul L c1 a ;;
  s0 <- phi_derivative 0 ;;
  t <- f_mul L c1a s0 ;;
  f_add L p0 t.

(** With [display] the formatted message evaluates [phi(a)] and the bound
    once more before the comparison; what is printed is not modelled. *)
Definition armijo_condition (a : float) : outcome bool :=
  _ <- (if display then (_ <- phi a ;; _ <- armijo_bound a ;; Ok tt) else Ok tt) ;;
  l <- phi a ;;
  r <- armijo_bound a ;;
  f_le L l r.

(** [while not armijo_condition(a): a /= 2] *)
Fixpoint armijo_loop (fuel : nat) (a : float) : outcome float :=
  match fuel with
  | O => Diverge
  | S fuel' =>
      ok <- armijo_condition a ;;
      if ok then Ok a
      else (a' <- f_div L a 2 ;; armijo_loop fuel' a')
  end.

(** [a = self.alpha_0 if previous_alpha is None else 2 * previous_alpha].
    A starting value that is [None] or a string is a [TypeError]: Python
    raises it when the value first meets an array, in [phi(a)], and nothing
    observable happens in between. *)
Definition armijo_start : outcome float :=
  match previous_alpha with
  | PyNone => (v <- getattr self "alpha_0" ;; as_float v)
  | p => (x <- as_float p ;; f_mul L 2 x)
  end.

Definition armijo (fuel : nat) : outcome float :=
  a <- armijo_start ;;
  armijo_loop fuel a.

Definition line_search (fuel : nat) : outcome pyval :=
  m <- getattr self "_method" ;;
  if py_eq_str m "Wolfe" then
    c1 <- getattr self "c1" ;;
    c2 <- getattr self "c2" ;;
    a <- scalar_search_wolf2 L (func oracle) (grad oracle) x_k d_k c1 c2 ;;
    if is_None a then (r <- armijo fuel ;; Ok (PyFloat r)) else item0 a
  else if py_eq_str m "Armijo" then
    (r <- armijo fuel ;; Ok (PyFloat r))
  else if py_eq_str m "Constant" then
    getattr self "c"
  else Raise AssertionError.
End line_search.

End LineSearchTool.

(** ** get_line_search_tool *)

(** What a caller can pass as [line_search_options]: a plain value, a dict
    or a [LineSearchTool] instance. *)
Inductive ls_options : Type :=
| OptValue (v : pyval)
| OptDict (d : gmap string pyval)
| OptTool (t : LineSearchTool).

(** [bool(line_search_options)]: an empty dict is falsy, an instance of a
    class without [__bool__] and [__len__] is truthy. *)
Definition options_truthy (o : ls_options) : bool :=
  match o with
  | OptValue v => truthy v
  | OptDict d => negb (bool_decide (d = ∅))
  | OptTool _ => true
  end.

(** [LineSearchTool.from_dict(options)] *)
Definition from_dict (options : ls_options) : outcome LineSearchTool :=
  match options with
  | OptDict d => LineSearchTool.call_with_dict d
  | _ => Raise TypeError
  end.

Definition get_line_search_tool (line_search_options : ls_options)
  : outcome LineSearchTool :=
  if options_truthy line_search_options then
    match line_search_options with
    | OptTool t => Ok t
    | _ => from_dict line_search_options
    end
  else LineSearchTool.default_tool.

(** ** The store: arrays, the history dictionary, the clock *)

(** A reference to an array. *)
Definition loc : Type := nat.

(** An entry of a history list: a float or a reference to an array. *)
Inductive hval : Type :=
| HFloat (x : float)
| HArr (l : loc).

Inductive fp_mode : Type := FpDefault | FpRaiseAll.

Record state : Type := {
  heap : list vec;
  history : option (gmap string (list hval));
  ticks : nat;
  errmode : fp_mode
}.

Definition M (A : Type) : Type := state -> outcome A * state.

Definition ret {A} (a : A) : M A := fun st => (Ok a, st).

(** Effects made before an exception stay in the state. *)
Definition bind {A B} (c : M A) (k : A -> M B) : M B :=
  fun st =>
    match c st with
    | (Ok a, st') => k a st'
    | (Raise e, st') => (Raise e, st')
    | (Diverge, st') => (Diverge, st')
    end.

Definition lift {A} (c : outcome A) : M A := fun st => (c, st).

Declare Scope M_scope.
Delimit Scope M_scope with M.
Notation "x <~ c ;; k" := (bind c (fun x => k))
  (at level 100, c at next level, right associativity) : M_scope.
Notation "c ;;; k" := (bind c (fun _ => k))
  (at level 100, right associativity) : M_scope.

(** The contents of the array at [l]. *)
Definition deref (st : state) (l : loc) : vec := default [] (heap st !! l).

Definition read (l : loc) : M vec := fun st => (Ok (deref st l), st).

(** A freshly allocated array. *)
Definition alloc (v : vec) : M loc :=
  fun st =>
    (Ok (length (heap st)),
     {| heap := (heap st ++ [v])%list; history := history st;
        ticks := ticks st; errmode := errmode st |}).

(** [np.copy(x)] *)
Definition np_copy (x : loc) : M loc :=
  (v <~ read x ;; alloc v)%M.

Definition set_history (h : option (gmap string (list hval))) : M unit :=
  fun st =>
    (Ok tt,
     {| heap := heap st; history := h; ticks := ticks st; errmode := errmode st |}).

(** [np.seterr(all='raise')] *)
Definition np_seterr_raise : M unit :=
  fun st =>
    (Ok tt,
     {| heap := heap st; history := history st; ticks := ticks st;
        errmode := FpRaiseAll |}).

Definition now (L : Libs) : M float :=
  fun st =>
    (Ok (time_time L (ticks st)),
     {| heap := heap st; history := history st; ticks := S (ticks st);
        errmode := errmode st |}).

(** [history[key]] on a [defaultdict(list)]: a missing key is created with
    an empty list. *)
Definition hist_item (key : string) : M unit :=
  fun st =>
    match history st with
    | None => (Raise TypeError, st)
    | Some h =>
        (Ok tt,
         {| heap := heap st;
            history := Some (<[key := default [] (h !! key)]> h);
            ticks := ticks st; errmode := errmode st |})
    end.

(** [.append(v)] on the list under [key]. *)
Definition hist_append (key : string) (v : hval) : M unit :=
  fun st =>
    match history st with
    | None => (Raise TypeError, st)
    | Some h =>
        (Ok tt,
         {| heap := heap st;
            history := Some (<[key := (default [] (h !! key) ++ [v])%list]> h);
            ticks := ticks st; errmode := errmode st |})
    end.

(** ** gradient_descent *)

Inductive control : Type :=
| Return (x : loc) (message : string)
| Next (x : loc) (a : pyval).

Section drivers.
Variable L : Libs.
Variable oracle : Oracle.
Variable x_0 : loc.
Variable tolerance : float.
Variable line_search_tool : LineSearchTool.
Variable display : bool.
Variable fuel : nat.
Variable start_time : float.

Local Open Scope M_scope.

Definition extend_history (x_k : loc) : M unit :=
  fun st =>
    match history st with
    | None => (Ok tt, st)
    | Some _ =>
        (xv <~ read x_k ;;
         g_k <~ lift (grad oracle xv) ;;
         hist_item "time" ;;;
         t <~ now L ;;
         hist_append "time" (HFloat (PrimFloat.sub t start_time)) ;;;
         hist_item "func" ;;;
         f <~ lift (func oracle xv) ;;
         hist_append "func" (HFloat f) ;;;
         hist_item "grad_norm" ;;;
         n <~ lift (np_norm L g_k) ;;
         hist_append "grad_norm" (HFloat n) ;;;
         if (length xv <=? 2)%nat
         then (hist_item "x" ;;; hist_append "x" (HArr x_k))
         else ret tt) st
    end.

(** [np.linalg.norm(g_k) <= tolerance * np.linalg.norm(g_0)] *)
Definition stop_test (st : state) (x_k : loc) : outcome bool :=
  (g_0 <- grad oracle (deref st x_0) ;;
   g_k <- grad oracle (deref st x_k) ;;
   nk <- np_norm L g_k ;;
   n0 <- np_norm L g_0 ;;
   bound <- f_mul L tolerance n0 ;;
   f_le L nk bound)%outcome.

Definition time_to_stop (x_k : loc) : M bool :=
  fun st => (stop_test st x_k, st).

(** The body of the [for] loop once the stopping test has failed: direction,
    step size, the three checks and the update, which binds [x_k] to a new
    array. *)
Definition gd_advance (x_k : loc) (a_k : pyval) : M control :=
  xv <~ read x_k ;;
  g_k <~ lift (grad oracle xv) ;;
  d_k <~ lift (np_neg L g_k) ;;
  a_k <~ lift (LineSearchTool.line_search L line_search_tool oracle xv d_k
                 a_k display fuel) ;;
  nan <~ lift (np_any_isnan L a_k) ;;
  if nan then ret (Return x_k "a_k computational_error")
  else
    xinf <~ lift (np_any_isinf L xv) ;;
    if xinf then ret (Return x_k "x_k computational_error")
    else
      dinf <~ lift (np_any_isinf L d_k) ;;
      if dinf then ret (Return x_k "d_k computational_error")
      else
        a <~ lift (as_float a_k) ;;
        ad <~ lift (np_scale L a d_k) ;;
        x' <~ lift (np_add L xv ad) ;;
        x_k' <~ alloc x' ;;
        ret (Next x_k' a_k).

(** One pass through the body of the [for] loop. *)
Definition gd_iteration (x_k : loc) (a_k : pyval) : M control :=
  extend_history x_k ;;;
  stop <~ time_to_stop x_k ;;
  if stop then ret (Return x_k "success")
  else gd_advance x_k a_k.

(** The code after the loop: one more trace record and one more test. *)
Definition gd_epilogue (x_k : loc) : M (loc * string) :=
  extend_history x_k ;;;
  stop <~ time_to_stop x_k ;;
  if stop then ret (x_k, "success")
  else ret (x_k, "iterations_exceeded").

(** [for _ in range(n): ...] followed by the code after the loop. *)
Fixpoint gd_loop (n : nat) (x_k : loc) (a_k : pyval) : M (loc * string) :=
  match n with
  | O => gd_epilogue x_k
  | S n' =>
      c <~ gd_iteration x_k a_k ;;
      match c with
      | Return x message => ret (x, message)
      | Next x a => gd_loop n' x a
      end
  end.
End drivers.

Definition result : Type := loc * string * option (gmap string (list hval)).

Section gradient_descent.
Variable L : Libs.
Variable oracle : Oracle.
Variable x_0 : loc.
Variable tolerance : float.
Variable max_iter : Z.
Variable line_search_options : ls_options.
Variable trace : bool.
Variable display : bool.
Variable fuel : nat.

Local Open Scope M_scope.

(** The statements before [try]; the result is [start_time]. *)
Definition gd_prologue : M float :=
  start_time <~ now L ;;
  set_history (if trace then Some ∅ else None) ;;;
  np_seterr_raise ;;;
  ret start_time.

(** The body of the [try] block. *)
Definition gd_try (start_time : float) : M (loc * string) :=
  line_search_tool <~ lift (get_line_search_tool line_search_options) ;;
  x_k <~ np_copy x_0 ;;
  gd_loop L oracle x_0 tolerance line_search_tool display fuel start_time
    (Z.to_nat max_iter) x_k PyNone.

(** [try: ... except FloatingPointError: return x_0, 'computational_error',
    history]; every [return] hands out the [history] object itself. *)
Definition gradient_descent : M result :=
  fun st =>
    match gd_prologue st with
    | (Ok start_time, st1) =>
        match gd_try start_time st1 with
        | (Ok (x, message), st2) => (Ok (x, message, history st2), st2)
        | (Raise FloatingPointError, st2) =>
            (Ok (x_0, "computational_error", history st2), st2)
        | (Raise e, st2) => (Raise e, st2)
        | (Diverge, st2) => (Diverge, st2)
        end
    | (Raise e, st1) => (Raise e, st1)
    | (Diverge, st1) => (Diverge, st1)
    end.

End gradient_descent.

(** ** newton *)

Definition newton (oracle : Oracle) (x_0 : loc) (tolerance : float)
  (max_iter : Z) (line_search_options : ls_options) (trace display : bool)
  : M result :=
  (set_history (if trace then Some ∅ else None) ;;;
   line_search_tool <~ lift (get_line_search_tool line_search_options) ;;
   x_k <~ np_copy x_0 ;;
   fun st => (Ok (x_k, "success", history st), st))%M.

(** ** Visited iterates

    The loop seen as a transition system on (current point, previous step,
    store): [gd_step] is one full pass that reaches the update. *)

Definition config : Type := loc * pyval * state.

Section visited.
Variable L : Libs.
Variable oracle : Oracle.
Variable x_0 : loc.
Variable tolerance : float.
Variable line_search_tool : LineSearchTool.
Variable display : bool.
Variable fuel : nat.
Variable start_time : float.

Definition gd_step (c : config) : option config :=
  let '(x, a, st) := c in
  match gd_iteration L oracle x_0 tolerance line_search_tool display fuel
          start_time x a st with
  | (Ok (Next x' a'), st') => Some (x', a', st')
  | _ => None
  end.

(** The configuration in which iterate number [j] is visited. *)
Fixpoint gd_steps (j : nat) (c : config) : option config :=
  match j with
  | O => Some c
  | S j' =>
      match gd_step c with
      | Some c' => gd_steps j' c'
      | None => None
      end
  end.

(** The stopping test as the driver evaluates it at a visited iterate: the
    trace record is appended first, then the test is taken. *)
Definition test_at (c : config) (st' : state) (b : bool) : Prop :=
  let '(x, _, st) := c in
  extend_history L oracle start_time x st = (Ok tt, st') /\
  stop_test L oracle x_0 tolerance st' x = Ok b.
End visited.

(** ** A reference instance of the libraries

    IEEE arithmetic on [PrimFloat], with an operation on finite operands that
    leaves the finite range raising [FloatingPointError]. *)

Module Reference.

Definition finite (x : float) : bool := negb (is_nan x || is_infinity x).

Definition trapped (operands result : list float) : outcome unit :=
  if forallb finite operands && negb (forallb finite result)
  then Raise FloatingPointError else Ok tt.

Definition scalar_op (op : float -> float -> float) (x y : float) : outcome float :=
  let r := op x y in
  _ <- trapped [x; y] [r] ;; Ok r.

Fixpoint zip_with_float (op : float -> float -> float) (x y : vec) : vec :=
  match x, y with
  | a :: x', b :: y' => op a b :: zip_with_float op x' y'
  | _, _ => []
  end.

(** Shapes must agree, except that an array of one element is broadcast. *)
Definition add (x y : vec) : outcome vec :=
  let r :=
    match x, y with
    | [a], _ => Ok (map (fun b => PrimFloat.add a b) y)
    | _, [b] => Ok (map (fun a => PrimFloat.add a b) x)
    | _, _ =>
        if (length x =? length y)%nat then Ok (zip_with_float PrimFloat.add x y)
        else Raise ValueError
    end in
  r <- r ;; _ <- trapped (x ++ y)%list r ;; Ok r.

Definition scale (a : float) (d : vec) : outcome vec :=
  let r := map (fun b => PrimFloat.mul a b) d in
  _ <- trapped (a :: d) r ;; Ok r.

Definition neg (g : vec) : outcome vec := Ok (map PrimFloat.opp g).

Definition dot (x y : vec) : outcome float :=
  if (length x =? length y)%nat then
    let r := fold_left PrimFloat.add (zip_with_float PrimFloat.mul x y) 0%float in
    _ <- trapped (x ++ y)%list [r] ;; Ok r
  else Raise ValueError.

Definition norm (g : vec) : outcome float :=
  s <- dot g g ;; Ok (PrimFloat.sqrt s).

Definition any_isnan (a : pyval) : outcome bool :=
  match a with
  | PyNone => Ok true
  | PyFloat x => Ok (is_nan x)
  | PyStr _ => Raise ValueError
  end.

Definition any_isinf (v : vec) : outcome bool := Ok (existsb is_infinity v).

Definition libs
  (search : (vec -> outcome float) -> (vec -> outcome vec) ->
            vec -> vec -> pyval -> pyval -> outcome pyobj)
  (clock : nat -> float) : Libs :=
  {| np_add := add; np_scale := scale; np_neg := neg; np_dot := dot;
     np_norm := norm; np_any_isnan := any_isnan; np_any_isinf := any_isinf;
     f_mul := scalar_op PrimFloat.mul; f_add := scalar_op PrimFloat.add;
     f_div := scalar_op PrimFloat.div;
     f_le := fun x y => Ok (PrimFloat.leb x y);
     scalar_search_wolf2 := search; time_time := clock |}.

(** A strong Wolfe search that finds no step: SciPy reports it with [None]
    in the first component of the tuple. *)
Definition search_fails
  (f : vec -> outcome float) (g : vec -> outcome vec)
  (x_k d_k : vec) (c1 c2 : pyval) : outcome pyobj :=
  Ok (ObjTuple {| wt_alpha := PyNone; wt_fc := 0; wt_gc := 0;
                  wt_new_fval := PyNone; wt_old_fval := PyNone;
                  wt_new_slope := PyNone |}).

Definition clock (n : nat) : float := PrimFloat.of_uint63 (Uint63.of_nat n).

Definition mat_vec (A : list vec) (x : vec) : vec :=
  map (fun row => fold_left PrimFloat.add (zip_with_float PrimFloat.mul row x) 0%float) A.

(** [A] is square of the size of [x], and so is [b]; NumPy rejects other
    shapes. *)
Definition shaped (A : list vec) (b x : vec) : bool :=
  (length A =? length x)%nat && (length b =? length x)%nat &&
  forallb (fun row => (length row =? length x)%nat) A.

(** Modelled from the spec: the quadratic oracle
    f(x) = 1/2 x^T A x - b^T x of the testable properties, which the
    repository keeps outside this module; gradient A x - b, Hessian A. *)
Definition QuadraticOracle (A : list vec) (b : vec) : Oracle :=
  {| func := fun x =>
       if shaped A b x then
         Ok (PrimFloat.sub
               (PrimFloat.mul 0.5 (fold_left PrimFloat.add
                  (zip_with_float PrimFloat.mul (mat_vec A x) x) 0%float))
               (fold_left PrimFloat.add (zip_with_float PrimFloat.mul b x) 0%float))
       else Raise ValueError;
     grad := fun x =>
       if shaped A b x then Ok (zip_with_float PrimFloat.sub (mat_vec A x) b)
       else Raise ValueError;
     hess := fun _ => Ok A |}.

(** An oracle whose gradient traps at every point, as [1 / x] does at [0]
    once NumPy raises on floating point errors. *)
Definition TrappingOracle : Oracle :=
  {| func := fun _ => Ok 0%float;
     grad := fun _ => Raise FloatingPointError;
     hess := fun _ => Ok [] |}.

Definition armijo_tool : LineSearchTool :=
  <["alpha_0" := PyFloat 1.0]> (<["c1" := PyFloat 1e-4]>
    (<["_method" := PyStr "Armijo"]> ∅)).

Definition empty_state (x : vec) : state :=
  {| heap := [x]; history := None; ticks := 0; errmode := FpDefault |}.

End Reference.

(** ** The statements of the specification, in its own words *)

Section armijo_spec.
Variable L : Libs.
Variable oracle : Oracle.
Variables x_k d_k : vec.

(** phi(alpha) <= phi(0) + c1 * alpha * phi'(0), every term being defined. *)
Definition sufficient_decrease (c1 alpha : float) : Prop :=
  exists l p0 c1a s0 t r,
    LineSearchTool.phi L oracle x_k d_k alpha = Ok l /\
    LineSearchTool.phi L oracle x_k d_k 0 = Ok p0 /\
    f_mul L c1 alpha = Ok c1a /\
    LineSearchTool.phi_derivative L oracle x_k d_k 0 = Ok s0 /\
    f_mul L c1a s0 = Ok t /\
    f_add L p0 t = Ok r /\
    f_le L l r = Ok true.

(** [a] halved [k] times. *)
Fixpoint halvings (k : nat) (a : float) : outcome float :=
  match k with
  | O => Ok a
  | S k' => a' <- f_div L a 2 ;; halvings k' a'
  end.

(** The starting guess: [alpha_0] without a previous step, twice the
    previous step otherwise. *)
Definition starting_guess (self : LineSearchTool) (previous_alpha : pyval)
  (start : float) : Prop :=
  match previous_alpha with
  | PyNone => self !! "alpha_0" = Some (PyFloat start)
  | PyFloat p => f_mul L 2 p = Ok start
  | PyStr _ => False
  end.

(** [alpha] is the first of [start], [start/2], [start/4], ... that the
    Armijo test accepts, after [k] rejected candidates. *)
Definition first_accepted (self : LineSearchTool) (display : bool)
  (start : float) (k : nat) (alpha : float) : Prop :=
  halvings k start = Ok alpha /\
  LineSearchTool.armijo_condition L self oracle x_k d_k display alpha = Ok true /\
  forall j, (j < k)%nat ->
    exists a_j, halvings j start = Ok a_j /\
      LineSearchTool.armijo_condition L self oracle x_k d_k display a_j = Ok false.
End armijo_spec.

(** The Armijo rule written from the oracle and the libraries alone. *)
Section armijo_rule.
Variable L : Libs.
Variable oracle : Oracle.
Variables x_k d_k : vec.

(** phi(alpha) = f(x_k + alpha * d_k) has the value [v]. *)
Definition restriction (alpha v : float) : Prop :=
  exists ad xa,
    np_scale L alpha d_k = Ok ad /\ np_add L x_k ad = Ok xa /\
    func oracle xa = Ok v.

(** phi'(alpha) = grad f(x_k + alpha * d_k) . d_k has the value [s]. *)
Definition restriction_slope (alpha s : float) : Prop :=
  exists ad xa g,
    np_scale L alpha d_k = Ok ad /\ np_add L x_k ad = Ok xa /\
    grad oracle xa = Ok g /\ np_dot L g d_k = Ok s.

(** The comparison phi(alpha) <= phi(0) + c1 * alpha * phi'(0) comes out
    as [b], every term being defined. *)
Definition armijo_test (c1 alpha : float) (b : bool) : Prop :=
  exists fa f0 c1a s0 t r,
    restriction alpha fa /\ restriction 0 f0 /\
    f_mul L c1 alpha = Ok c1a /\
    restriction_slope 0 s0 /\
    f_mul L c1a s0 = Ok t /\ f_add L f0 t = Ok r /\
    f_le L fa r = Ok b.
End armijo_rule.

(** The default tool, [LineSearchTool()], attribute by attribute. *)
Definition wolfe_defaults : LineSearchTool :=
  <["alpha_0" := PyFloat 1.0]> (<["c2" := PyFloat 0.9]> (<["c1" := PyFloat 1e-4]>
    (<["_method" := PyStr "Wolfe"]> ∅))).

(** The configuration in which the loop is entered: the clock has been read
    once, the history is fresh, NumPy traps, and [x_k] is a copy of [x_0]. *)
Definition gd_entry (trace : bool) (x_0 : loc) (st : state) : config :=
  (length (heap st), PyNone,
   {| heap := (heap st ++ [deref st x_0])%list;
      history := if trace then Some ∅ else None;
      ticks := S (ticks st); errmode := FpRaiseAll |}).

(** ** The trace, in the words of the specification *)

(** The list under [key], empty when the key is absent. *)
Definition entries (m : gmap string (list hval)) (key : string) : list hval :=
  default [] (m !! key).

(** [n] records have been appended; [small] says whether the points are
    kept. *)
Definition recorded (n : nat) (small : bool) (st : state) : Prop :=
  exists m, history st = Some m /\
    length (entries m "time") = n /\
    length (entries m "func") = n /\
    length (entries m "grad_norm") = n /\
    (if small then length (entries m "x") = n else m !! "x" = None).

(** Arrays keep their shape: the gradient has the shape of its argument,
    and negation, scaling and the sum of two arrays of one shape keep it. *)
Definition shape_preserving (L : Libs) (oracle : Oracle) : Prop :=
  (forall x g, grad oracle x = Ok g -> length g = length x) /\
  (forall g d, np_neg L g = Ok d -> length d = length g) /\
  (forall a d r, np_scale L a d = Ok r -> length r = length d) /\
  (forall x y r, length y = length x -> np_add L x y = Ok r -> length r = length x).

(** ** Inputs of the concrete runs *)

(** The scenario of the specification: A the 5 x 5 identity,
    b = [0,1,2,3,4], x_0 = zeros(5), Armijo with c1 = 1e-4. *)
Definition identity5 : list vec :=
  [[1; 0; 0; 0; 0]; [0; 1; 0; 0; 0]; [0; 0; 1; 0; 0]; [0; 0; 0; 1; 0];
   [0; 0; 0; 0; 1]]%float.

Definition armijo_options : ls_options :=
  OptDict (<["method" := PyStr "Armijo"]> (<["c1" := PyFloat 1e-4]> ∅)).

Definition scenario_libs : Libs :=
  Reference.libs Reference.search_fails Reference.clock.

Definition scenario_oracle : Oracle :=
  Reference.QuadraticOracle identity5 [0; 1; 2; 3; 4]%float.

Definition scenario_state : state :=
  Reference.empty_state [0; 0; 0; 0; 0]%float.

Definition scenario_run : outcome result * state :=
  gradient_descent scenario_libs scenario_oracle 0 1e-5 10000 armijo_options
    true false 100 scenario_state.

(** A traced run on an oracle whose gradient traps. *)
Definition trapped_run : outcome result * state :=
  gradient_descent (Reference.libs Reference.search_fails Reference.clock)
    Reference.TrappingOracle 0 1e-5 10 (OptValue PyNone) true false 10
    (Reference.empty_state [0%float]).

(** A traced run in the plane. *)
Definition plane_run : outcome result * state :=
  gradient_descent (Reference.libs Reference.search_fails Reference.clock)
    (Reference.QuadraticOracle [[1; 0]; [0; 1]]%float [1; 2]%float)
    0 1e-5 3 armijo_options true false 100
    (Reference.empty_state [0; 0]%float).

(** ** The checks between the line search and the update *)

(** The three tests that follow the line search, as one function: the
    message of the first test that fires, if any. *)
Definition failed_check (L : Libs) (a_k : pyval) (xv d_k : vec)
  : outcome (option string) :=
  (nan <- np_any_isnan L a_k ;;
   if nan then Ok (Some "a_k computational_error")
   else
     xinf <- np_any_isinf L xv ;;
     if xinf then Ok (Some "x_k computational_error")
     else
       dinf <- np_any_isinf L d_k ;;
       if dinf then Ok (Some "d_k computational_error")
       else Ok None)%outcome.

(** The second half of the loop body as a function of the contents of
    [x_k] and of the previous step: either the message of a failed check, or
    the accepted step together with the contents of the next iterate. *)
Definition gd_plan (L : Libs) (oracle : Oracle) (tool : LineSearchTool)
  (display : bool) (fuel : nat) (xv : vec) (a_k : pyval)
  : outcome (string + pyval * vec) :=
  (g_k <- grad oracle xv ;;
   d_k <- np_neg L g_k ;;
   step <- LineSearchTool.line_search L tool oracle xv d_k a_k display fuel ;;
   c <- failed_check L step xv d_k ;;
   match c with
   | Some message => Ok (inl message)
   | None =>
       s <- as_float step ;;
       ad <- np_scale L s d_k ;;
       v <- np_add L xv ad ;;
       Ok (inr (step, v))
   end)%outcome.

(** ** Complete and interrupted trace records *)

(** [n] complete records; the points are kept for some of them. *)
Definition full_record (n : nat) (st : state) : Prop :=
  exists m, history st = Some m /\
    length (entries m "time") = n /\
    length (entries m "func") = n /\
    length (entries m "grad_norm") = n /\
    (length (entries m "x") <= n)%nat.

(** The lists of a history that may have been cut in the middle of a
    record: each list is at most one entry ahead of the next one. *)
Definition record_chain (m : gmap string (list hval)) : Prop :=
  (length (entries m "x") <= length (entries m "grad_norm"))%nat /\
  (length (entries m "grad_norm") <= length (entries m "func"))%nat /\
  (length (entries m "func") <= length (entries m "time"))%nat /\
  (length (entries m "time") <= S (length (entries m "grad_norm")))%nat.

(** ** NumPy in its default error mode

    IEEE arithmetic on [PrimFloat] in which nothing traps: the mode in which
    [line_search] runs when it is called on its own. *)

Module Plain.

Definition add (x y : vec) : outcome vec :=
  match x, y with
  | [a], _ => Ok (map (fun b => PrimFloat.add a b) y)
  | _, [b] => Ok (map (fun a => PrimFloat.add a b) x)
  | _, _ =>
      if (length x =? length y)%nat
      then Ok (Reference.zip_with_float PrimFloat.add x y)
      else Raise ValueError
  end.

Definition dot (x y : vec) : outcome float :=
  if (length x =? length y)%nat then
    Ok (fold_left PrimFloat.add (Reference.zip_with_float PrimFloat.mul x y) 0%float)
  else Raise ValueError.

Definition libs
  (search : (vec -> outcome float) -> (vec -> outcome vec) ->
            vec -> vec -> pyval -> pyval -> outcome pyobj)
  (clock : nat -> float) : Libs :=
  {| np_add := add;
     np_scale := fun a d => Ok (map (fun b => PrimFloat.mul a b) d);
     np_neg := Reference.neg; np_dot := dot;
     np_norm := fun g => (s <- dot g g ;; Ok (PrimFloat.sqrt s))%outcome;
     np_any_isnan := Reference.any_isnan; np_any_isinf := Reference.any_isinf;
     f_mul := fun x y => Ok (PrimFloat.mul x y);
     f_add := fun x y => Ok (PrimFloat.add x y);
     f_div := fun x y => Ok (PrimFloat.div x y);
     f_le := fun x y => Ok (PrimFloat.leb x y);
     scalar_search_wolf2 := search; time_time := clock |}.

(** An objective that is not a number anywhere. *)
Definition NaNOracle : Oracle :=
  {| func := fun _ => Ok nan;
     grad := fun x => Ok (map (fun _ => nan) x);
     hess := fun _ => Ok [] |}.

End Plain.

(** An objective whose value traps while its gradient is fine. *)
Definition ValueTrappingOracle : Oracle :=
  {| func := fun _ => Raise FloatingPointError;
     grad := fun x => Ok x;
     hess := fun _ => Ok [] |}.

(** A traced run that is interrupted in the middle of its first record. *)
Definition interrupted_run : outcome result * state :=
  gradient_descent scenario_libs ValueTrappingOracle 0 1e-5 10 (OptValue PyNone)
    true false 10 (Reference.empty_state [1%float]).

(** The default tool on f(x) = 2 x^2 - x with a Wolfe search that fails. *)
Definition wolfe_failure_run : outcome result * state :=
  gradient_descent scenario_libs (Reference.QuadraticOracle [[4%float]] [1%float])
    0 1e-5 10 (OptValue PyNone) false false 10 (Reference.empty_state [0%float]).

(** The relative stopping test written from the oracle and the libraries:
    with [xv0] the contents of the starting point and [xv] those of the
    current point, norm(grad f(xv)) <= tolerance * norm(grad f(xv0)) comes
    out as [b]. *)
Definition relative_test (L : Libs) (oracle : Oracle) (tolerance : float)
  (xv0 xv : vec) (b : bool) : Prop :=
  exists g0 g nk n0 bound,
    grad oracle xv0 = Ok g0 /\ grad oracle xv = Ok g /\
    np_norm L g = Ok nk /\ np_norm L g0 = Ok n0 /\
    f_mul L tolerance n0 = Ok bound /\ f_le L nk bound = Ok b.

(** A traced run started at a stationary point of an objective whose value
    traps. *)
Definition stationary_trapped_run : outcome result * state :=
  gradient_descent scenario_libs ValueTrappingOracle 0 1e-5 10 (OptValue PyNone)
    true false 10 (Reference.empty_state [0%float]).

(** A tool with the constant step 0.5. *)
Definition constant_tool : LineSearchTool :=
  <["c" := PyFloat 0.5]> (<["_method" := PyStr "Constant"]> ∅).

(** ** Tactics for the two monads *)

Ltac ocase c := destruct c as [?|?|] eqn:?; cbn in *; try discriminate.


(** ** Properties of the step-size policies *)

Section line_search_facts.
Variable L : Libs.
Variable self : LineSearchTool.
Variable oracle : Oracle.
Variables x_k d_k : vec.
Variable display : bool.

Lemma armijo_condition_true (a : float) :
  LineSearchTool.armijo_condition L self oracle x_k d_k display a = Ok true ->
  exists c1, self !! "c1" = Some (PyFloat c1) /\
    sufficient_decrease L oracle x_k d_k c1 a.
Proof.
  unfold LineSearchTool.armijo_condition, LineSearchTool.armijo_bound, getattr.
  intros H.
  destruct (if display then _ else _) as [[]|?|]; cbn in H; try discriminate.
  ocase (LineSearchTool.phi L oracle x_k d_k a).
  ocase (LineSearchTool.phi L oracle x_k d_k 0).
  destruct (self !! "c1") as [[|c1|]|] eqn:Hc1; cbn in H; try discriminate.
  ocase (f_mul L c1 a).
  ocase (LineSearchTool.phi_derivative L oracle x_k d_k 0).
  match type of H with context [f_mul L ?u ?v] => ocase (f_mul L u v) end.
  match type of H with context [f_add L ?u ?v] => ocase (f_add L u v) end.
  exists c1. split; [reflexivity|].
  unfold sufficient_decrease. repeat eexists; eassumption.
Qed.

Lemma armijo_loop_first_accepted (fuel : nat) (start alpha : float) :
  LineSearchTool.armijo_loop L self oracle x_k d_k display fuel start = Ok alpha <->
  exists k, (k < fuel)%nat /\
    first_accepted L oracle x_k d_k self display start k alpha.
Proof.
  revert start. induction fuel as [|fuel IH]; intros start; cbn.
  - split; [discriminate | intros (k & Hk & _); lia].
  - split.
    + intros H.
      destruct (LineSearchTool.armijo_condition L self oracle x_k d_k display start)
        as [[|]|?|] eqn:Hc; cbn in H; try discriminate.
      * injection H as <-. exists 0%nat. split; [lia|].
        split; [reflexivity|]. split; [assumption|]. intros j Hj; lia.
      * destruct (f_div L start 2) as [a'|?|] eqn:Hd; cbn in H; try discriminate.
        apply IH in H as (k & Hk & Hh & Hacc & Hrej).
        exists (S k). split; [lia|]. split; [|split].
        -- cbn. rewrite Hd. exact Hh.
        -- exact Hacc.
        -- intros [|j] Hj.
           ++ exists start. split; [reflexivity | exact Hc].
           ++ destruct (Hrej j) as (a_j & Ha & Hf); [lia|].
              exists a_j. split; [cbn; rewrite Hd; exact Ha | exact Hf].
    + intros (k & Hk & Hh & Hacc & Hrej).
      destruct k as [|k].
      * cbn in Hh. injection Hh as <-. rewrite Hacc. reflexivity.
      * destruct (Hrej 0%nat) as (a0 & Ha0 & Hf0); [lia|].
        cbn in Ha0. injection Ha0 as <-. rewrite Hf0. cbn.
        cbn in Hh.
        destruct (f_div L start 2) as [a'|?|] eqn:Hd; cbn in Hh; try discriminate.
        cbn. apply IH. exists k. split; [lia|]. split; [exact Hh|].
        split; [exact Hacc|].
        intros j Hj. destruct (Hrej (S j)) as (a_j & Ha & Hf); [lia|].
        cbn in Ha. rewrite Hd in Ha. cbn in Ha. eauto.
Qed.

Lemma armijo_start_guess (previous_alpha : pyval) (start : float) :
  LineSearchTool.armijo_start L self previous_alpha = Ok start <->
  starting_guess L self previous_alpha start.
Proof.
  unfold LineSearchTool.armijo_start, starting_guess, getattr.
  destruct previous_alpha as [|p|s]; cbn.
  - destruct (self !! "alpha_0") as [[|a|]|]; cbn; split; intros H;
      try discriminate; congruence.
  - reflexivity.
  - split; [discriminate | contradiction].
Qed.

Lemma armijo_first_accepted (previous_alpha : pyval) (fuel : nat) (alpha : float) :
  LineSearchTool.armijo L self oracle x_k d_k previous_alpha display fuel = Ok alpha <->
  exists start k, (k < fuel)%nat /\
    starting_guess L self previous_alpha start /\
    first_accepted L oracle x_k d_k self display start k alpha.
Proof.
  unfold LineSearchTool.armijo. split.
  - intros H.
    destruct (LineSearchTool.armijo_start L self previous_alpha) as [start|?|] eqn:Hs;
      cbn in H; try discriminate.
    apply armijo_loop_first_accepted in H as (k & Hk & Hf).
    exists start, k. split; [exact Hk|]. split; [|exact Hf].
    apply armijo_start_guess. exact Hs.
  - intros (start & k & Hk & Hs & Hf).
    apply armijo_start_guess in Hs. rewrite Hs. cbn.
    apply armijo_loop_first_accepted. eauto.
Qed.
End line_search_facts.

(** With the Armijo policy, [line_search] returns a step exactly when some
    candidate of the halving sequence passes the tool's own test within the
    fuel. *)
Theorem armijo_step_sufficient_decrease
  (L : Libs) (self : LineSearchTool) (oracle : Oracle) (x_k d_k : vec)
  (previous_alpha : pyval) (display : bool) (fuel : nat) (step : pyval) :
  self !! "_method" = Some (PyStr "Armijo") ->
  (LineSearchTool.line_search L self oracle x_k d_k previous_alpha display fuel
   = Ok step <->
   exists start k alpha, (k < fuel)%nat /\ step = PyFloat alpha /\
     starting_guess L self previous_alpha start /\
     first_accepted L oracle x_k d_k self display start k alpha) /\
  (forall alpha,
     LineSearchTool.line_search L self oracle x_k d_k previous_alpha display fuel
     = Ok (PyFloat alpha) ->
     exists c1, self !! "c1" = Some (PyFloat c1) /\
       sufficient_decrease L oracle x_k d_k c1 alpha).
Proof.
  intros Hm.
  assert (Hls : LineSearchTool.line_search L self oracle x_k d_k previous_alpha
                  display fuel
                = (r <- LineSearchTool.armijo L self oracle x_k d_k previous_alpha
                          display fuel ;; Ok (PyFloat r))).
  { unfold LineSearchTool.line_search, getattr. rewrite Hm. reflexivity. }
  rewrite Hls. split.
  - split.
    + intros H.
      destruct (LineSearchTool.armijo L self oracle x_k d_k previous_alpha display fuel)
        as [alpha|?|] eqn:Ha; cbn in H; try discriminate.
      injection H as <-.
      apply armijo_first_accepted in Ha as (start & k & Hk & Hs & Hf).
      exists start, k, alpha. auto.
    + intros (start & k & alpha & Hk & -> & Hs & Hf).
      assert (Ha : LineSearchTool.armijo L self oracle x_k d_k previous_alpha
                     display fuel = Ok alpha)
        by (apply armijo_first_accepted; eauto).
      rewrite Ha. reflexivity.
  - intros alpha H.
    destruct (LineSearchTool.armijo L self oracle x_k d_k previous_alpha display fuel)
      as [a|?|] eqn:Ha; cbn in H; try discriminate.
    injection H as ->.
    apply armijo_first_accepted in Ha as (start & k & _ & _ & _ & Hacc & _).
    eapply armijo_condition_true. exact Hacc.
Qed.

Section armijo_rule_facts.
Variable L : Libs.
Variable self : LineSearchTool.
Variable oracle : Oracle.
Variables x_k d_k : vec.
Variable display : bool.

Lemma phi_restriction a v :
  LineSearchTool.phi L oracle x_k d_k a = Ok v <->
  restriction L oracle x_k d_k a v.
Proof.
  unfold LineSearchTool.phi, restriction, obind. split.
  - destruct (np_scale L a d_k) as [ad|?|] eqn:Hs; try discriminate.
    destruct (np_add L x_k ad) as [xa|?|] eqn:Ha; try discriminate.
    eauto.
  - intros (ad & xa & Hs & Ha & Hf). rewrite Hs, Ha. exact Hf.
Qed.

Lemma phi_derivative_slope a s :
  LineSearchTool.phi_derivative L oracle x_k d_k a = Ok s <->
  restriction_slope L oracle x_k d_k a s.
Proof.
  unfold LineSearchTool.phi_derivative, restriction_slope, obind. split.
  - destruct (np_scale L a d_k) as [ad|?|] eqn:Hs; try discriminate.
    destruct (np_add L x_k ad) as [xa|?|] eqn:Ha; try discriminate.
    destruct (grad oracle xa) as [g|?|] eqn:Hg; try discriminate.
    eauto 10.
  - intros (ad & xa & g & Hs & Ha & Hg & Hd). rewrite Hs, Ha, Hg. exact Hd.
Qed.

Lemma armijo_bound_ok c1 a r :
  self !! "c1" = Some (PyFloat c1) ->
  LineSearchTool.armijo_bound L self oracle x_k d_k a = Ok r <->
  exists f0 c1a s0 t,
    restriction L oracle x_k d_k 0 f0 /\ f_mul L c1 a = Ok c1a /\
    restriction_slope L oracle x_k d_k 0 s0 /\
    f_mul L c1a s0 = Ok t /\ f_add L f0 t = Ok r.
Proof.
  intros Hc1. unfold LineSearchTool.armijo_bound, getattr. rewrite Hc1.
  unfold obind. cbn. split.
  - destruct (LineSearchTool.phi L oracle x_k d_k 0) as [f0|?|] eqn:Hp;
      try discriminate.
    destruct (f_mul L c1 a) as [c1a|?|] eqn:Hm; try discriminate.
    destruct (LineSearchTool.phi_derivative L oracle x_k d_k 0) as [s0|?|] eqn:Hd;
      try discriminate.
    destruct (f_mul L c1a s0) as [t|?|] eqn:Ht; try discriminate.
    intros Hr. exists f0, c1a, s0, t.
    apply phi_restriction in Hp. apply phi_derivative_slope in Hd. auto.
  - intros (f0 & c1a & s0 & t & Hp & Hm & Hd & Ht & Hr).
    apply phi_restriction in Hp. apply phi_derivative_slope in Hd.
    rewrite Hp, Hm, Hd, Ht. exact Hr.
Qed.

(** The tool's test is the Armijo comparison; with [display] it is merely
    evaluated twice. *)
Lemma armijo_condition_test c1 a b :
  self !! "c1" = Some (PyFloat c1) ->
  LineSearchTool.armijo_condition L self oracle x_k d_k display a = Ok b <->
  armijo_test L oracle x_k d_k c1 a b.
Proof.
  intros Hc1. unfold LineSearchTool.armijo_condition, armijo_test. split.
  - intros H.
    destruct (if display then _ else _) as [[]|?|]; cbn in H; try discriminate.
    destruct (LineSearchTool.phi L oracle x_k d_k a) as [fa|?|] eqn:Hp;
      cbn in H; try discriminate.
    destruct (LineSearchTool.armijo_bound L self oracle x_k d_k a) as [r|?|] eqn:Hb;
      cbn in H; try discriminate.
    apply phi_restriction in Hp.
    apply (armijo_bound_ok c1 a r Hc1) in Hb as (f0 & c1a & s0 & t & ? & ? & ? & ? & ?).
    exists fa, f0, c1a, s0, t, r. auto 10.
  - intros (fa & f0 & c1a & s0 & t & r & Hp & Hp0 & Hm & Hd & Ht & Hr & Hle).
    apply phi_restriction in Hp.
    assert (Hb : LineSearchTool.armijo_bound L self oracle x_k d_k a = Ok r)
      by (apply (armijo_bound_ok c1 a r Hc1); eauto 10).
    rewrite Hp, Hb. destruct display; cbn; exact Hle.
Qed.

Lemma armijo_condition_needs_c1 a b :
  LineSearchTool.armijo_condition L self oracle x_k d_k display a = Ok b ->
  exists c1, self !! "c1" = Some (PyFloat c1).
Proof.
  unfold LineSearchTool.armijo_condition, LineSearchTool.armijo_bound, getattr.
  intros H.
  destruct (if display then _ else _) as [[]|?|]; cbn in H; try discriminate.
  destruct (LineSearchTool.phi L oracle x_k d_k a); cbn in H; try discriminate.
  destruct (LineSearchTool.phi L oracle x_k d_k 0); cbn in H; try discriminate.
  destruct (self !! "c1") as [[|c1|]|]; cbn in H; try discriminate.
  eauto.
Qed.
End armijo_rule_facts.

(** C3. With the Armijo policy, [line_search] returns a step exactly when
    some candidate of the halving sequence is accepted within the fuel: the
    sequence starts at [alpha_0] without a previous step and at twice the
    previous step otherwise, every candidate before the returned alpha fails
    the comparison, and alpha satisfies
    f(x_k + alpha d_k) <= f(x_k + 0 d_k) + c1 * alpha * (grad f(x_k + 0 d_k) . d_k),
    the terms being those the oracle and the libraries compute. *)
Theorem armijo_step_satisfies_inequality
  (L : Libs) (self : LineSearchTool) (oracle : Oracle) (x_k d_k : vec)
  (previous_alpha : pyval) (display : bool) (fuel : nat) (step : pyval) :
  self !! "_method" = Some (PyStr "Armijo") ->
  LineSearchTool.line_search L self oracle x_k d_k previous_alpha display fuel
  = Ok step <->
  exists c1 start k alpha, (k < fuel)%nat /\ step = PyFloat alpha /\
    self !! "c1" = Some (PyFloat c1) /\
    starting_guess L self previous_alpha start /\
    halvings L k start = Ok alpha /\
    armijo_test L oracle x_k d_k c1 alpha true /\
    forall j, (j < k)%nat ->
      exists a_j, halvings L j start = Ok a_j /\
        armijo_test L oracle x_k d_k c1 a_j false.
Proof.
  intros Hm.
  assert (Hls : LineSearchTool.line_search L self oracle x_k d_k previous_alpha
                  display fuel
                = (r <- LineSearchTool.armijo L self oracle x_k d_k previous_alpha
                          display fuel ;; Ok (PyFloat r))).
  { unfold LineSearchTool.line_search, getattr. rewrite Hm. reflexivity. }
  rewrite Hls. split.
  - intros H.
    destruct (LineSearchTool.armijo L self oracle x_k d_k previous_alpha display fuel)
      as [alpha|?|] eqn:Ha; cbn in H; try discriminate.
    injection H as <-.
    apply armijo_first_accepted in Ha as (start & k & Hk & Hs & Hh & Hacc & Hrej).
    destruct (armijo_condition_needs_c1 _ _ _ _ _ _ _ _ Hacc) as [c1 Hc1].
    exists c1, start, k, alpha. split; [exact Hk|]. split; [reflexivity|].
    split; [exact Hc1|]. split; [exact Hs|]. split; [exact Hh|]. split.
    + apply (armijo_condition_test L self oracle x_k d_k display c1 alpha true Hc1).
      exact Hacc.
    + intros j Hj. destruct (Hrej j Hj) as (a_j & Haj & Hf).
      exists a_j. split; [exact Haj|].
      apply (armijo_condition_test L self oracle x_k d_k display c1 a_j false Hc1).
      exact Hf.
  - intros (c1 & start & k & alpha & Hk & -> & Hc1 & Hs & Hh & Hacc & Hrej).
    assert (Ha : LineSearchTool.armijo L self oracle x_k d_k previous_alpha
                   display fuel = Ok alpha).
    { apply armijo_first_accepted. exists start, k. split; [exact Hk|].
      split; [exact Hs|]. split; [exact Hh|]. split.
      - apply (armijo_condition_test L self oracle x_k d_k display c1 alpha true Hc1).
        exact Hacc.
      - intros j Hj. destruct (Hrej j Hj) as (a_j & Haj & Hf).
        exists a_j. split; [exact Haj|].
        apply (armijo_condition_test L self oracle x_k d_k display c1 a_j false Hc1).
        exact Hf. }
    rewrite Ha. reflexivity.
Qed.

Lemma armijo_step_satisfies_inequality_witness :
  exists c1 start k, (k < 10)%nat /\
    Reference.armijo_tool !! "c1" = Some (PyFloat c1) /\
    halvings (Reference.libs Reference.search_fails Reference.clock) k start
    = Ok 0.25%float /\
    armijo_test (Reference.libs Reference.search_fails Reference.clock)
      (Reference.QuadraticOracle [[4%float]] [1%float]) [0%float] [1%float]
      c1 0.25 true.
Proof.
  destruct (proj1 (armijo_step_satisfies_inequality
              (Reference.libs Reference.search_fails Reference.clock)
              Reference.armijo_tool
              (Reference.QuadraticOracle [[4%float]] [1%float])
              [0%float] [1%float] PyNone false 10 (PyFloat 0.25) eq_refl))
    as (c1 & start & k & alpha & Hk & Hstep & Hc1 & _ & Hh & Hacc & _).
  - vm_compute. reflexivity.
  - injection Hstep as <-. exists c1, start, k. auto.
Defined.

(** The Wolfe branch never reaches the Armijo procedure when the search
    hands back a tuple: it returns the first component, whatever it is. *)
Lemma wolfe_returns_first_component
  (L : Libs) (self : LineSearchTool) (oracle : Oracle) (x_k d_k : vec)
  (previous_alpha : pyval) (display : bool) (fuel : nat)
  (c1 c2 : pyval) (t : wolfe_tuple) :
  self !! "_method" = Some (PyStr "Wolfe") ->
  self !! "c1" = Some c1 -> self !! "c2" = Some c2 ->
  scalar_search_wolf2 L (func oracle) (grad oracle) x_k d_k c1 c2 = Ok (ObjTuple t) ->
  LineSearchTool.line_search L self oracle x_k d_k previous_alpha display fuel
  = Ok (wt_alpha t).
Proof.
  intros Hm H1 H2 Hs. unfold LineSearchTool.line_search, getattr.
  rewrite Hm. cbn. rewrite H1, H2. cbn. rewrite Hs. reflexivity.
Qed.

(** C4. On f(x) = 1/2 x^2 at x_k = [1] with the ascent direction
    d_k = [1], phi'(0) = 1 is positive: the bound -c2 * phi'(0) of the
    curvature test is negative and no step can pass it. Whatever search
    reports this failure the way SciPy does, with [None] as first component
    of its tuple, [line_search] of the default tool returns that [None],
    although the Armijo backtracking with the same warm start returns the
    step 2^-53. *)
Theorem wolfe_failure_returns_None
  (search : (vec -> outcome float) -> (vec -> outcome vec) ->
            vec -> vec -> pyval -> pyval -> outcome pyobj)
  (clock : nat -> float) (t : wolfe_tuple) :
  let L := Reference.libs search clock in
  let oracle := Reference.QuadraticOracle [[1%float]] [0%float] in
  search (func oracle) (grad oracle) [1%float] [1%float]
    (PyFloat 1e-4) (PyFloat 0.9) = Ok (ObjTuple t) ->
  wt_alpha t = PyNone ->
  LineSearchTool.phi_derivative L oracle [1%float] [1%float] 0 = Ok 1%float /\
  PrimFloat.ltb (PrimFloat.opp (PrimFloat.mul 0.9 1)) 0 = true /\
  LineSearchTool.line_search L wolfe_defaults oracle [1%float] [1%float]
    PyNone false 100 = Ok PyNone /\
  LineSearchTool.armijo L wolfe_defaults oracle [1%float] [1%float]
    PyNone false 100 = Ok 0x1p-53%float.
Proof.
  intros L oracle Hsearch Halpha.
  split; [vm_compute; reflexivity|]. split; [vm_compute; reflexivity|]. split.
  - rewrite (wolfe_returns_first_component L wolfe_defaults oracle [1%float]
               [1%float] PyNone false 100 (PyFloat 1e-4) (PyFloat 0.9) t
               eq_refl eq_refl eq_refl Hsearch).
    rewrite Halpha. reflexivity.
  - vm_compute. reflexivity.
Qed.

Lemma wolfe_failure_returns_None_witness :
  LineSearchTool.line_search (Reference.libs Reference.search_fails Reference.clock)
    wolfe_defaults (Reference.QuadraticOracle [[1%float]] [0%float])
    [1%float] [1%float] PyNone false 100 = Ok PyNone.
Proof.
  destruct (wolfe_failure_returns_None Reference.search_fails Reference.clock
              {| wt_alpha := PyNone; wt_fc := 0; wt_gc := 0; wt_new_fval := PyNone;
                 wt_old_fval := PyNone; wt_new_slope := PyNone |}
              eq_refl eq_refl) as (_ & _ & H & _).
  exact H.
Defined.

(** C7. A tool built with method ['Constant'] returns its configured [c]
    ([kwargs.get('c', 1.0)]) from [line_search], whatever the libraries, the
    oracle, the point, the direction, the previous step, [display] and the
    fuel are. *)
Theorem constant_line_search_returns_c (kwargs : gmap string pyval) :
  exists tool,
    LineSearchTool.__init__ (PyStr "Constant") kwargs = Ok tool /\
    forall L oracle x_k d_k previous_alpha display fuel,
      LineSearchTool.line_search L tool oracle x_k d_k previous_alpha display fuel
      = Ok (kwargs_get kwargs "c" (PyFloat 1.0)).
Proof.
  eexists. split; [reflexivity|].
  intros. unfold LineSearchTool.line_search, getattr.
  rewrite lookup_insert_ne by discriminate.
  rewrite lookup_insert_eq. cbn.
  rewrite lookup_insert_eq. reflexivity.
Qed.

(** ** Construction of the tool *)

Lemma default_tool_is_wolfe_defaults :
  LineSearchTool.default_tool = Ok wolfe_defaults.
Proof. reflexivity. Qed.

Lemma falsy_options_default (o : ls_options) :
  options_truthy o = false -> get_line_search_tool o = Ok wolfe_defaults.
Proof. unfold get_line_search_tool. intros ->. reflexivity. Qed.

(** C9, as stated, fails at the value [0.0]: it is neither a dict nor a
    [LineSearchTool], and yet no [TypeError] is raised; the default tool is
    built. *)
Lemma falsy_value_is_not_a_type_error :
  get_line_search_tool (OptValue (PyFloat 0)) = Ok wolfe_defaults /\
  get_line_search_tool (OptValue (PyFloat 0)) <> Raise TypeError.
Proof. split; [reflexivity | discriminate]. Qed.

(** C9, amended. Every falsy [line_search_options] ([None], an empty dict,
    [0.0], the empty string) yields the Wolfe tool with c1 = 1e-4, c2 = 0.9,
    alpha_0 = 1.0, and [gradient_descent] and [newton] then behave as with
    that tool; a [LineSearchTool] instance is returned as it is; a non-empty
    dict goes to the constructor; a truthy value that is neither is a
    [TypeError], which both drivers let through. *)
Theorem get_line_search_tool_cases :
  (wolfe_defaults !! "_method" = Some (PyStr "Wolfe") /\
   wolfe_defaults !! "c1" = Some (PyFloat 1e-4) /\
   wolfe_defaults !! "c2" = Some (PyFloat 0.9) /\
   wolfe_defaults !! "alpha_0" = Some (PyFloat 1.0)) /\
  get_line_search_tool (OptValue PyNone) = Ok wolfe_defaults /\
  (forall o, options_truthy o = false ->
     get_line_search_tool o = Ok wolfe_defaults /\
     (forall L oracle x_0 tolerance max_iter trace display fuel st,
        gradient_descent L oracle x_0 tolerance max_iter o trace display fuel st
        = gradient_descent L oracle x_0 tolerance max_iter (OptTool wolfe_defaults)
            trace display fuel st) /\
     (forall oracle x_0 tolerance max_iter trace display st,
        newton oracle x_0 tolerance max_iter o trace display st
        = newton oracle x_0 tolerance max_iter (OptTool wolfe_defaults)
            trace display st)) /\
  (forall t, get_line_search_tool (OptTool t) = Ok t) /\
  (forall d, d <> ∅ ->
     get_line_search_tool (OptDict d) = LineSearchTool.call_with_dict d) /\
  (forall v, truthy v = true ->
     get_line_search_tool (OptValue v) = Raise TypeError /\
     (forall L oracle x_0 tolerance max_iter trace display fuel st,
        fst (gradient_descent L oracle x_0 tolerance max_iter (OptValue v)
               trace display fuel st) = Raise TypeError) /\
     (forall oracle x_0 tolerance max_iter trace display st,
        fst (newton oracle x_0 tolerance max_iter (OptValue v) trace display st)
        = Raise TypeError)).
Proof.
  split; [repeat split|]. split; [reflexivity|].
  split; [|split; [|split]].
  - intros o Ho. pose proof (falsy_options_default o Ho) as Hd.
    split; [exact Hd|]. split; intros.
    + unfold gradient_descent, gd_try. rewrite Hd. reflexivity.
    + unfold newton. rewrite Hd. reflexivity.
  - reflexivity.
  - intros d Hd. unfold get_line_search_tool, options_truthy.
    rewrite bool_decide_eq_false_2 by exact Hd. reflexivity.
  - intros v Hv.
    assert (Hg : get_line_search_tool (OptValue v) = Raise TypeError).
    { unfold get_line_search_tool. cbn. rewrite Hv. reflexivity. }
    split; [exact Hg|]. split; intros.
    + unfold gradient_descent, gd_try. cbn. unfold bind, lift. rewrite Hg.
      reflexivity.
    + unfold newton. cbn. unfold bind, lift. rewrite Hg. reflexivity.
Qed.

(** ** The drivers: how the store evolves *)

Section driver_facts.
Variable L : Libs.
Variable oracle : Oracle.
Variable x_0 : loc.
Variable tolerance : float.
Variable tool : LineSearchTool.
Variable display : bool.
Variable fuel : nat.
Variable start_time : float.

Local Abbreviation extend_history' := (extend_history L oracle start_time).
Local Abbreviation stop_test' := (stop_test L oracle x_0 tolerance).
Local Abbreviation gd_advance' := (gd_advance L oracle tool display fuel).
Local Abbreviation gd_iteration' :=
  (gd_iteration L oracle x_0 tolerance tool display fuel start_time).
Local Abbreviation gd_loop' :=
  (gd_loop L oracle x_0 tolerance tool display fuel start_time).
Local Abbreviation gd_epilogue' := (gd_epilogue L oracle x_0 tolerance start_time).
Local Abbreviation gd_step' :=
  (gd_step L oracle x_0 tolerance tool display fuel start_time).
Local Abbreviation gd_steps' :=
  (gd_steps L oracle x_0 tolerance tool display fuel start_time).
Local Abbreviation test_at' := (test_at L oracle x_0 tolerance start_time).

Lemma extend_history_heap x st r st' :
  extend_history' x st = (r, st') -> heap st' = heap st.
Proof.
  unfold extend_history. destruct (history st) as [h|] eqn:Hh.
  - unfold bind, read, lift, hist_item, hist_append, now, ret. rewrite Hh. cbn.
    intros H. repeat case_match; simplify_eq; reflexivity.
  - intros H. simplify_eq. reflexivity.
Qed.

Lemma extend_history_untraced x st :
  history st = None -> extend_history' x st = (Ok tt, st).
Proof. unfold extend_history. intros ->. reflexivity. Qed.

Lemma gd_iteration_unfold x a st :
  gd_iteration' x a st =
  match extend_history' x st with
  | (Ok _, st1) =>
      match stop_test' st1 x with
      | Ok true => (Ok (Return x "success"), st1)
      | Ok false => gd_advance' x a st1
      | Raise e => (Raise e, st1)
      | Diverge => (Diverge, st1)
      end
  | (Raise e, st1) => (Raise e, st1)
  | (Diverge, st1) => (Diverge, st1)
  end.
Proof.
  unfold gd_iteration, bind, time_to_stop, ret.
  destruct (extend_history' x st) as [[[]|?|] st1]; try reflexivity.
  destruct (stop_test' st1 x) as [[|]|?|]; reflexivity.
Qed.

(** What the second half of the loop body can do: return one of the three
    messages without touching the store, or allocate the next iterate. *)
Lemma gd_advance_ok x a st c st' :
  gd_advance' x a st = (Ok c, st') ->
  (st' = st /\
   (c = Return x "a_k computational_error" \/
    c = Return x "x_k computational_error" \/
    c = Return x "d_k computational_error")) \/
  (exists g d a' s ad v,
     grad oracle (deref st x) = Ok g /\ np_neg L g = Ok d /\
     as_float a' = Ok s /\ np_scale L s d = Ok ad /\
     np_add L (deref st x) ad = Ok v /\
     c = Next (length (heap st)) a' /\
     st' = {| heap := (heap st ++ [v])%list; history := history st;
              ticks := ticks st; errmode := errmode st |}).
Proof.
  unfold gd_advance, bind, read, lift, ret, alloc. intros H.
  repeat case_match; simplify_eq; cbn in *; eauto 20.
Qed.

Lemma gd_advance_heap x a st r st' :
  gd_advance' x a st = (r, st') ->
  heap st `prefix_of` heap st' /\ history st' = history st.
Proof.
  unfold gd_advance, bind, read, lift, ret, alloc. intros H.
  repeat case_match; simplify_eq; cbn in *;
    (split; [first [reflexivity | by apply prefix_app_r] | reflexivity]).
Qed.

Lemma gd_iteration_heap x a st r st' :
  gd_iteration' x a st = (r, st') -> heap st `prefix_of` heap st'.
Proof.
  rewrite gd_iteration_unfold.
  destruct (extend_history' x st) as [r1 st1] eqn:He.
  apply extend_history_heap in He. rewrite <- He.
  destruct r1 as [[]|?|]; [|intros; simplify_eq; reflexivity..].
  destruct (stop_test' st1 x) as [[|]|?|]; try (intros; simplify_eq; reflexivity).
  intros H. apply gd_advance_heap in H as [H _]. exact H.
Qed.

Lemma gd_loop_heap n x a st r st' :
  gd_loop' n x a st = (r, st') -> heap st `prefix_of` heap st'.
Proof.
  revert x a st. induction n as [|n IH]; intros x a st; cbn.
  - unfold gd_epilogue, bind, time_to_stop, ret.
    destruct (extend_history' x st) as [r1 st1] eqn:He.
    apply extend_history_heap in He. rewrite <- He.
    destruct r1 as [[]|?|]; [|intros; simplify_eq; reflexivity..].
    destruct (stop_test _ _ _ _ st1 x) as [[|]|?|];
      intros; simplify_eq; reflexivity.
  - unfold bind. destruct (gd_iteration' x a st) as [r1 st1] eqn:Hi.
    apply gd_iteration_heap in Hi.
    destruct r1 as [[x1 m|x1 a1]|?|]; unfold ret;
      try (intros; simplify_eq; exact Hi).
    intros H. apply IH in H. etrans; eassumption.
Qed.

Lemma gd_steps_S j c :
  gd_steps' (S j) c =
  match gd_step' c with Some c' => gd_steps' j c' | None => None end.
Proof. reflexivity. Qed.

(** One step of the transition system, spelled out. *)
Lemma gd_step_inv x a st x' a' st' :
  gd_step' (x, a, st) = Some (x', a', st') ->
  exists st1 g d s ad v,
    test_at' (x, a, st) st1 false /\
    grad oracle (deref st1 x) = Ok g /\ np_neg L g = Ok d /\
    as_float a' = Ok s /\ np_scale L s d = Ok ad /\
    np_add L (deref st1 x) ad = Ok v /\
    x' = length (heap st1) /\
    st' = {| heap := (heap st1 ++ [v])%list; history := history st1;
             ticks := ticks st1; errmode := errmode st1 |}.
Proof.
  unfold gd_step. rewrite gd_iteration_unfold.
  destruct (extend_history' x st) as [[[]|?|] st1] eqn:He; try discriminate.
  destruct (stop_test' st1 x) as [[|]|?|] eqn:Ht; try discriminate.
  destruct (gd_advance' x a st1) as [[[]|?|] st2] eqn:Ha; try discriminate.
  intros H. simplify_eq.
  apply gd_advance_ok in Ha as [[_ [?|[?|?]]]|(g & d & a1 & s & ad & v & H)];
    try discriminate.
  destruct H as (? & ? & ? & ? & ? & ? & ?). simplify_eq.
  exists st1, g, d, s, ad, v. unfold test_at. auto 10.
Qed.

(** When the test at the current iterate is false, the pass through the body
    is whatever the second half does. *)
Lemma gd_iteration_test_false x a st st1 :
  test_at' (x, a, st) st1 false -> gd_iteration' x a st = gd_advance' x a st1.
Proof.
  intros [He Ht]. rewrite gd_iteration_unfold, He, Ht. reflexivity.
Qed.

Lemma gd_iteration_test_true x a st st1 :
  test_at' (x, a, st) st1 true ->
  gd_iteration' x a st = (Ok (Return x "success"), st1).
Proof.
  intros [He Ht]. rewrite gd_iteration_unfold, He, Ht. reflexivity.
Qed.

Lemma test_at_functional c st1 st2 b1 b2 :
  test_at' c st1 b1 -> test_at' c st2 b2 -> st1 = st2 /\ b1 = b2.
Proof.
  destruct c as [[x a] st]. intros [He1 Ht1] [He2 Ht2].
  rewrite He1 in He2. simplify_eq. rewrite Ht1 in Ht2. simplify_eq. auto.
Qed.

(** Every normal return of the loop happens at a visited iterate, right
    after its trace record and its stopping test. *)
Lemma gd_loop_return n x a st x' message st' :
  gd_loop' n x a st = (Ok (x', message), st') ->
  exists j a' st_j b,
    (j <= n)%nat /\
    gd_steps' j (x, a, st) = Some (x', a', st_j) /\
    test_at' (x', a', st_j) st' b /\
    ((b = true /\ message = "success") \/
     (b = false /\ j = n /\ message = "iterations_exceeded") \/
     (b = false /\ (j < n)%nat /\
      (message = "a_k computational_error" \/
       message = "x_k computational_error" \/
       message = "d_k computational_error"))).
Proof.
  revert x a st. induction n as [|n IH]; intros x a st; cbn.
  - unfold gd_epilogue, bind, time_to_stop, ret.
    destruct (extend_history' x st) as [[[]|?|] st1] eqn:He; try discriminate.
    destruct (stop_test _ _ _ _ st1 x) as [[|]|?|] eqn:Ht;
      try discriminate; intros H; simplify_eq.
    + exists 0%nat, a, st, true. unfold test_at. auto 10.
    + exists 0%nat, a, st, false. unfold test_at. auto 10.
  - unfold bind. rewrite gd_iteration_unfold.
    destruct (extend_history' x st) as [[[]|?|] st1] eqn:He; try discriminate.
    destruct (stop_test' st1 x) as [[|]|?|] eqn:Ht; try discriminate.
    + unfold ret. intros H. simplify_eq.
      exists 0%nat, a, st, true. unfold test_at.
      split; [lia|]. auto 10.
    + destruct (gd_advance' x a st1) as [[[x1 m|x1 a1]|?|] st2] eqn:Ha;
        try discriminate.
      * unfold ret. intros H. simplify_eq.
        apply gd_advance_ok in Ha as [[-> Hm]|(g & d & a1 & s & ad & v & Hn)].
        -- assert (x' = x) as -> by (destruct Hm as [?|[?|?]]; congruence).
           exists 0%nat, a, st, false. unfold test_at.
           split; [lia|]. split; [reflexivity|]. split; [auto|].
           right. right. split; [reflexivity|]. split; [lia|].
           destruct Hm as [?|[?|?]]; simplify_eq; auto.
        -- destruct Hn as (_ & _ & _ & _ & _ & ? & _). discriminate.
      * intros H. apply IH in H as (j & a' & st_j & b & Hj & Hs & Ht' & Hm).
        exists (S j), a', st_j, b. split; [lia|]. split.
        -- cbn. unfold gd_step. rewrite gd_iteration_unfold, He, Ht, Ha.
           exact Hs.
        -- split; [exact Ht'|].
           destruct Hm as [?|[(? & ? & ?)|(? & ? & ?)]]; [auto|right; left|right; right];
             (split; [assumption|]); (split; [lia|assumption]).
Qed.

(** A visited iterate at which the test holds ends the run with
    ['success']. *)
Lemma gd_loop_success n j x a st x' a' st_j st' :
  (j <= n)%nat ->
  gd_steps' j (x, a, st) = Some (x', a', st_j) ->
  test_at' (x', a', st_j) st' true ->
  gd_loop' n x a st = (Ok (x', "success"), st').
Proof.
  revert j x a st. induction n as [|n IH]; intros j x a st Hj Hs Ht.
  - assert (j = 0)%nat as -> by lia. cbn in Hs. simplify_eq.
    destruct Ht as [He Ht]. cbn. unfold gd_epilogue, bind, time_to_stop, ret.
    rewrite He, Ht. reflexivity.
  - cbn. unfold bind. destruct j as [|j].
    + cbn in Hs. simplify_eq. rewrite (gd_iteration_test_true _ _ _ _ Ht).
      reflexivity.
    + rewrite gd_steps_S in Hs.
      destruct (gd_step' (x, a, st)) as [[[x1 a1] st1]|] eqn:Hg; [|discriminate].
      unfold gd_step in Hg.
      destruct (gd_iteration' x a st) as [[[]|?|] st2]; try discriminate.
      simplify_eq. eapply IH; [|eassumption..]. lia.
Qed.

(** When all [n] passes reach the update and the test fails once more, the
    run ends with ['iterations_exceeded']. *)
Lemma gd_loop_exceeded n x a st x' a' st_n st' :
  gd_steps' n (x, a, st) = Some (x', a', st_n) ->
  test_at' (x', a', st_n) st' false ->
  gd_loop' n x a st = (Ok (x', "iterations_exceeded"), st').
Proof.
  revert x a st. induction n as [|n IH]; intros x a st Hs Ht.
  - cbn in Hs. simplify_eq. destruct Ht as [He Ht]. cbn.
    unfold gd_epilogue, bind, time_to_stop, ret. rewrite He, Ht. reflexivity.
  - rewrite gd_steps_S in Hs.
    destruct (gd_step' (x, a, st)) as [[[x1 a1] st1]|] eqn:Hg; [|discriminate].
    cbn. unfold bind. unfold gd_step in Hg.
    destruct (gd_iteration' x a st) as [[[]|?|] st2]; try discriminate.
    simplify_eq. eapply IH; eassumption.
Qed.
(** The run from the start is the run from any visited iterate. *)
Lemma gd_loop_split n j x a st x' a' st_j :
  (j <= n)%nat ->
  gd_steps' j (x, a, st) = Some (x', a', st_j) ->
  gd_loop' n x a st = gd_loop' (n - j) x' a' st_j.
Proof.
  revert n x a st. induction j as [|j IH]; intros n x a st Hj Hs.
  - cbn in Hs. simplify_eq. rewrite Nat.sub_0_r. reflexivity.
  - destruct n as [|n]; [lia|]. rewrite gd_steps_S in Hs.
    destruct (gd_step' (x, a, st)) as [[[x1 a1] st1]|] eqn:Hg; [|discriminate].
    unfold gd_step in Hg.
    destruct (gd_iteration' x a st) as [[[]|?|] st2] eqn:Hi; try discriminate.
    simplify_eq. cbn [gd_loop]. unfold bind at 1. rewrite Hi.
    rewrite (IH n _ _ _ ltac:(lia) Hs). reflexivity.
Qed.

(** An exception that leaves the loop was raised during the pass at some
    visited iterate, or in the code after the loop. *)
Lemma gd_loop_raise n x a st e st' :
  gd_loop' n x a st = (Raise e, st') <->
  exists j x' a' st_j,
    gd_steps' j (x, a, st) = Some (x', a', st_j) /\
    (((j < n)%nat /\ gd_iteration' x' a' st_j = (Raise e, st')) \/
     (j = n /\ gd_epilogue' x' st_j = (Raise e, st'))).
Proof.
  split.
  - revert x a st. induction n as [|n IH]; intros x a st H.
    + exists 0%nat, x, a, st. split; [reflexivity|]. right. auto.
    + cbn in H. unfold bind in H.
      destruct (gd_iteration' x a st) as [[[x1 m|x1 a1]|e1|] st1] eqn:Hi;
        try discriminate.
      * apply IH in H as (j & x' & a' & st_j & Hs & Hc).
        exists (S j), x', a', st_j. split.
        -- rewrite gd_steps_S. unfold gd_step. rewrite Hi. exact Hs.
        -- destruct Hc as [[? ?]|[? ?]]; [left|right]; split; auto; lia.
      * simplify_eq. exists 0%nat, x, a, st. split; [reflexivity|].
        left. split; [lia|exact Hi].
  - intros (j & x' & a' & st_j & Hs & Hc).
    assert (Hj : (j <= n)%nat) by (destruct Hc as [[? _]|[? _]]; lia).
    rewrite (gd_loop_split _ _ _ _ _ _ _ _ Hj Hs).
    destruct Hc as [[Hlt Hi]|[-> He]].
    + destruct (n - j)%nat as [|m] eqn:Hm; [lia|].
      cbn. unfold bind. rewrite Hi. reflexivity.
    + rewrite Nat.sub_diag. exact He.
Qed.
End driver_facts.

(** ** gradient_descent as a whole *)

Section gradient_descent_facts.
Variable L : Libs.
Variable oracle : Oracle.
Variable x_0 : loc.
Variable tolerance : float.
Variable max_iter : Z.
Variable line_search_options : ls_options.
Variable trace : bool.
Variable display : bool.
Variable fuel : nat.

Local Abbreviation gradient_descent' :=
  (gradient_descent L oracle x_0 tolerance max_iter line_search_options trace
     display fuel).
Local Abbreviation gd_try' :=
  (gd_try L oracle x_0 tolerance max_iter line_search_options display fuel).

Lemma gd_prologue_eq st :
  gd_prologue L trace st =
  (Ok (time_time L (ticks st)),
   {| heap := heap st; history := if trace then Some ∅ else None;
      ticks := S (ticks st); errmode := FpRaiseAll |}).
Proof. reflexivity. Qed.

Lemma gd_try_loop tool st :
  get_line_search_tool line_search_options = Ok tool ->
  let '(x, a, st2) := gd_entry trace x_0 st in
  gd_try' (time_time L (ticks st)) (gd_prologue L trace st).2 =
  gd_loop L oracle x_0 tolerance tool display fuel (time_time L (ticks st))
    (Z.to_nat max_iter) x a st2.
Proof.
  intros Ht. unfold gd_entry, gd_try, bind, lift, np_copy, read, alloc.
  rewrite Ht. reflexivity.
Qed.

Lemma gradient_descent_unfold st :
  gradient_descent' st =
  match gd_try' (time_time L (ticks st)) (gd_prologue L trace st).2 with
  | (Ok (x, message), st2) => (Ok (x, message, history st2), st2)
  | (Raise FloatingPointError, st2) =>
      (Ok (x_0, "computational_error", history st2), st2)
  | (Raise e, st2) => (Raise e, st2)
  | (Diverge, st2) => (Diverge, st2)
  end.
Proof. reflexivity. Qed.

Lemma gd_try_heap t0 st r st' :
  gd_try' t0 st = (r, st') -> heap st `prefix_of` heap st'.
Proof.
  unfold gd_try, bind, lift, np_copy, read, alloc.
  destruct (get_line_search_tool line_search_options) as [tool|?|];
    [|intros; simplify_eq; reflexivity..].
  intros H. apply gd_loop_heap in H. cbn in H.
  etrans; [|exact H]. by apply prefix_app_r.
Qed.

Lemma gradient_descent_heap st :
  heap st `prefix_of` heap (gradient_descent' st).2.
Proof.
  rewrite gradient_descent_unfold.
  destruct (gd_try' _ _) as [r st2] eqn:Ht. apply gd_try_heap in Ht. cbn in Ht.
  destruct r as [[x m]|[]|]; exact Ht.
Qed.

(** The messages of the loop: ['computational_error'] is not one of them. *)
Lemma gd_try_message t0 st x message st' :
  gd_try' t0 st = (Ok (x, message), st') -> message <> "computational_error".
Proof.
  unfold gd_try, bind, lift, np_copy, read, alloc.
  destruct (get_line_search_tool line_search_options) as [tool|?|];
    try discriminate.
  intros H. apply gd_loop_return in H as (j & a' & st_j & b & _ & _ & _ & Hm).
  destruct Hm as [[_ Hm]|[(_ & _ & Hm)|(_ & _ & [Hm|[Hm|Hm]])]];
    rewrite Hm; discriminate.
Qed.
End gradient_descent_facts.

(** Once the tool is built, [gradient_descent] returns ['success'] at [x]
    exactly when [x] is a visited iterate, with index at most [max_iter], at
    which the driver's record and test succeed; and ['iterations_exceeded']
    exactly when iterate number [max_iter] is visited and the test fails
    there. *)
Theorem gradient_descent_success_iff
  (L : Libs) (oracle : Oracle) (x_0 : loc) (tolerance : float) (max_iter : Z)
  (line_search_options : ls_options) (trace display : bool) (fuel : nat)
  (st : state) (tool : LineSearchTool) :
  get_line_search_tool line_search_options = Ok tool ->
  let t0 := time_time L (ticks st) in
  let visit j :=
    gd_steps L oracle x_0 tolerance tool display fuel t0 j (gd_entry trace x_0 st) in
  let run :=
    gradient_descent L oracle x_0 tolerance max_iter line_search_options trace
      display fuel st in
  (forall x h st',
     run = (Ok (x, "success", h), st') <->
     h = history st' /\
     exists j a st_j, (j <= Z.to_nat max_iter)%nat /\
       visit j = Some (x, a, st_j) /\
       test_at L oracle x_0 tolerance t0 (x, a, st_j) st' true) /\
  (forall x h st',
     run = (Ok (x, "iterations_exceeded", h), st') <->
     h = history st' /\
     exists a st_j,
       visit (Z.to_nat max_iter) = Some (x, a, st_j) /\
       test_at L oracle x_0 tolerance t0 (x, a, st_j) st' false).
Proof.
  intros Htool t0 visit run. subst run.
  pose proof (gd_try_loop L oracle x_0 tolerance max_iter line_search_options
                trace display fuel tool st Htool) as Hloop.
  unfold visit. destruct (gd_entry trace x_0 st) as [[xe ae] ste] eqn:Hentry.
  split; intros x h st'; rewrite gradient_descent_unfold; fold t0;
    fold t0 in Hloop; rewrite Hloop.
  - split.
    + intros H.
      destruct (gd_loop _ _ _ _ _ _ _ _ _ _ _ _) as [r st2] eqn:Hr.
      destruct r as [[x1 m]|[]|]; simplify_eq.
      split; [reflexivity|].
      apply gd_loop_return in Hr as (j & a' & st_j & b & Hj & Hs & Ht & Hm).
      destruct Hm as [[Hb _]|[(_ & _ & ?)|(_ & _ & [?|[?|?]])]]; try discriminate.
      subst b.
      eauto 10.
    + intros (-> & j & a & st_j & Hj & Hs & Ht).
      rewrite (gd_loop_success _ _ _ _ _ _ _ _ _ _ _ _ _ _ _ _ _ Hj Hs Ht).
      reflexivity.
  - split.
    + intros H.
      destruct (gd_loop _ _ _ _ _ _ _ _ _ _ _ _) as [r st2] eqn:Hr.
      destruct r as [[x1 m]|[]|]; simplify_eq.
      split; [reflexivity|].
      apply gd_loop_return in Hr as (j & a' & st_j & b & Hj & Hs & Ht & Hm).
      destruct Hm as [[_ ?]|[(Hb & Hn & _)|(_ & _ & [?|[?|?]])]]; try discriminate.
      subst b j.
      eauto 10.
    + intros (-> & a & st_j & Hs & Ht).
      rewrite (gd_loop_exceeded _ _ _ _ _ _ _ _ _ _ _ _ _ _ _ _ Hs Ht).
      reflexivity.
Qed.

(** C5. Once the tool is built: whenever a [FloatingPointError] is raised
    during the pass at a visited iterate, or in the code after the loop,
    [gradient_descent] returns the caller's [x_0] itself, the message
    ['computational_error'] and the history as it is at that moment, every
    array of the caller being as it was; and that message is only ever
    returned this way. *)
Theorem gradient_descent_trap_returns_x0
  (L : Libs) (oracle : Oracle) (x_0 : loc) (tolerance : float) (max_iter : Z)
  (line_search_options : ls_options) (trace display : bool) (fuel : nat)
  (st : state) (tool : LineSearchTool) :
  get_line_search_tool line_search_options = Ok tool ->
  let t0 := time_time L (ticks st) in
  let visit j :=
    gd_steps L oracle x_0 tolerance tool display fuel t0 j (gd_entry trace x_0 st) in
  let trapped_at j st' :=
    exists x a st_j, visit j = Some (x, a, st_j) /\
      (((j < Z.to_nat max_iter)%nat /\
        gd_iteration L oracle x_0 tolerance tool display fuel t0 x a st_j
        = (Raise FloatingPointError, st')) \/
       (j = Z.to_nat max_iter /\
        gd_epilogue L oracle x_0 tolerance t0 x st_j
        = (Raise FloatingPointError, st'))) in
  let run :=
    gradient_descent L oracle x_0 tolerance max_iter line_search_options trace
      display fuel st in
  (forall j st',
     trapped_at j st' ->
     run = (Ok (x_0, "computational_error", history st'), st') /\
     heap st `prefix_of` heap st') /\
  (forall x h st',
     run = (Ok (x, "computational_error", h), st') ->
     x = x_0 /\ h = history st' /\ exists j, trapped_at j st').
Proof.
  intros Htool t0 visit trapped_at run. subst run trapped_at visit.
  pose proof (gd_try_loop L oracle x_0 tolerance max_iter line_search_options
                trace display fuel tool st Htool) as Hloop.
  pose proof (gradient_descent_heap L oracle x_0 tolerance max_iter
                line_search_options trace display fuel st) as Hheap.
  revert Hheap. rewrite gradient_descent_unfold. fold t0. fold t0 in Hloop.
  destruct (gd_entry trace x_0 st) as [[xe ae] ste] eqn:Hentry.
  rewrite Hloop. intros Hheap. split.
  - intros j st' (x & a & st_j & Hs & Hc).
    assert (Hr : gd_loop L oracle x_0 tolerance tool display fuel t0
                   (Z.to_nat max_iter) xe ae ste = (Raise FloatingPointError, st'))
      by (apply gd_loop_raise; eauto 10).
    rewrite Hr in Hheap |- *. auto.
  - intros x h st'.
    destruct (gd_loop _ _ _ _ _ _ _ _ _ _ _ _) as [r st2] eqn:Hr.
    destruct r as [[x1 m]|[]|]; intros H; simplify_eq.
    + apply gd_loop_return in Hr as (j & a' & st_j & b & _ & _ & _ & Hm).
      destruct Hm as [[_ Hm]|[(_ & _ & Hm)|(_ & _ & [Hm|[Hm|Hm]])]];
        discriminate.
    + split; [reflexivity|]. split; [reflexivity|].
      apply gd_loop_raise in Hr as (j & x' & a' & st_j & Hs & Hc). eauto 10.
Qed.

(** ** The caller's arrays *)

Lemma prefix_deref st st' l :
  heap st `prefix_of` heap st' -> (l < length (heap st))%nat ->
  deref st' l = deref st l.
Proof.
  intros [k Hk] Hl. unfold deref. rewrite Hk, lookup_app_l by exact Hl.
  reflexivity.
Qed.

Section visited_facts.
Variable L : Libs.
Variable oracle : Oracle.
Variable x_0 : loc.
Variable tolerance : float.
Variable tool : LineSearchTool.
Variable display : bool.
Variable fuel : nat.
Variable start_time : float.

Local Abbreviation gd_steps' :=
  (gd_steps L oracle x_0 tolerance tool display fuel start_time).
Local Abbreviation test_at' := (test_at L oracle x_0 tolerance start_time).

(** Every visited iterate is allocated, and later ones are newer. *)
Lemma gd_steps_bounds j x a st x' a' st' :
  (x < length (heap st))%nat ->
  gd_steps' j (x, a, st) = Some (x', a', st') ->
  (x <= x' < length (heap st'))%nat.
Proof.
  revert x a st. induction j as [|j IH]; intros x a st Hx Hs.
  - cbn in Hs. simplify_eq. lia.
  - rewrite gd_steps_S in Hs.
    destruct (gd_step _ _ _ _ _ _ _ _ (x, a, st)) as [[[x1 a1] st1]|] eqn:Hg;
      [|discriminate].
    apply gd_step_inv in Hg as (st2 & g & d & s & ad & v & [He _] & _ & _ & _ & _ & _ & -> & ->).
    apply extend_history_heap in He.
    apply IH in Hs; cbn; rewrite ?length_app, ?He; cbn; [|lia].
    rewrite He in Hs. lia.
Qed.
End visited_facts.

(** C10. [gradient_descent] only ever allocates: whatever the way it ends,
    the arrays that existed at entry, [x_0] among them, are still there with
    the contents they had; and a point returned by the loop is an array that
    did not exist at entry, so it is never [x_0] itself. *)
Theorem gradient_descent_leaves_x0
  (L : Libs) (oracle : Oracle) (x_0 : loc) (tolerance : float) (max_iter : Z)
  (line_search_options : ls_options) (trace display : bool) (fuel : nat)
  (st : state) :
  let run :=
    gradient_descent L oracle x_0 tolerance max_iter line_search_options trace
      display fuel st in
  heap st `prefix_of` heap run.2 /\
  (forall l, (l < length (heap st))%nat -> deref run.2 l = deref st l) /\
  (forall x message h,
     run.1 = Ok (x, message, h) -> message <> "computational_error" ->
     (length (heap st) <= x < length (heap run.2))%nat).
Proof.
  intros run. subst run.
  pose proof (gradient_descent_heap L oracle x_0 tolerance max_iter
                line_search_options trace display fuel st) as Hpre.
  split; [exact Hpre|]. split.
  - intros l Hl. apply prefix_deref; assumption.
  - intros x message h. rewrite gradient_descent_unfold.
    destruct (get_line_search_tool line_search_options) as [tool|e|] eqn:Htool.
    + pose proof (gd_try_loop L oracle x_0 tolerance max_iter line_search_options
                    trace display fuel tool st Htool) as Hloop.
      destruct (gd_entry trace x_0 st) as [[xe ae] ste] eqn:Hentry.
      rewrite Hloop.
      destruct (gd_loop _ _ _ _ _ _ _ _ _ _ _ _) as [r st2] eqn:Hr.
      destruct r as [[x1 m]|[]|]; cbn; intros H Hm; simplify_eq.
      apply gd_loop_return in Hr as (j & a' & st_j & b & _ & Hs & [He _] & _).
      unfold gd_entry in Hentry. simplify_eq.
      apply gd_steps_bounds in Hs; [|cbn; rewrite length_app; cbn; lia].
      apply extend_history_heap in He. rewrite He. exact Hs.
    + unfold gd_try, bind, lift. rewrite Htool. cbn.
      destruct e; cbn; intros H Hm; simplify_eq; congruence.
    + unfold gd_try, bind, lift. rewrite Htool. cbn. intros; discriminate.
Qed.

(** ** The trace *)

Section trace_facts.
Variable L : Libs.
Variable oracle : Oracle.
Variable x_0 : loc.
Variable tolerance : float.
Variable tool : LineSearchTool.
Variable display : bool.
Variable fuel : nat.
Variable start_time : float.
Hypothesis shapes : shape_preserving L oracle.

Local Abbreviation extend_history' := (extend_history L oracle start_time).
Local Abbreviation gd_steps' :=
  (gd_steps L oracle x_0 tolerance tool display fuel start_time).

Lemma extend_history_recorded n x st st' :
  recorded n (length (deref st x) <=? 2)%nat st ->
  extend_history' x st = (Ok tt, st') ->
  recorded (S n) (length (deref st x) <=? 2)%nat st'.
Proof.
  unfold extend_history, read, bind.
  generalize (deref st x). intros xv (m & Hm & Ht & Hf & Hg & Hx).
  rewrite Hm. unfold bind, read, lift, hist_item, hist_append, now, ret.
  destruct st as [hp hs tk em]. cbn in Hm. subst hs. cbn.
  destruct (grad oracle xv) as [g|?|]; cbn; try discriminate.
  destruct (func oracle xv) as [f|?|]; cbn; try discriminate.
  destruct (np_norm L g) as [nr|?|]; cbn; try discriminate.
  unfold recorded, entries in *.
  destruct (length xv <=? 2)%nat; cbn; intros H; simplify_eq;
    eexists; (split; [reflexivity|]); simplify_map_eq;
    rewrite ?length_app; cbn; repeat split; try lia; try done.
Qed.

Lemma gd_steps_recorded j n x a st x' a' st' :
  gd_steps' j (x, a, st) = Some (x', a', st') ->
  recorded n (length (deref st x) <=? 2)%nat st ->
  recorded (n + j) (length (deref st x) <=? 2)%nat st' /\
  length (deref st' x') = length (deref st x).
Proof.
  revert n x a st. induction j as [|j IH]; intros n x a st Hs Hr.
  - cbn in Hs. simplify_eq. rewrite Nat.add_0_r. auto.
  - rewrite gd_steps_S in Hs.
    destruct (gd_step _ _ _ _ _ _ _ _ (x, a, st)) as [[[x1 a1] st1]|] eqn:Hg;
      [|discriminate].
    apply gd_step_inv in Hg
      as (st2 & g & d & s & ad & v & [He _] & Hgr & Hn & _ & Hsc & Hadd & -> & ->).
    pose proof (extend_history_heap _ _ _ _ _ _ _ He) as Hheap.
    assert (Hd : deref st2 x = deref st x) by (unfold deref; rewrite Hheap; done).
    rewrite Hd in *.
    destruct shapes as (Sg & Sn & Ss & Sa).
    assert (Hv : length v = length (deref st x)).
    { eapply Sa; [|exact Hadd]. rewrite (Ss _ _ _ Hsc), (Sn _ _ Hn). eauto. }
    pose proof (extend_history_recorded _ _ _ _ Hr He) as Hr'.
    match type of Hs with
    | gd_steps' j (?x1, a1, ?s1) = _ =>
        assert (Hx1 : deref s1 x1 = v)
          by (unfold deref; cbn; rewrite list_lookup_middle by done; done);
        assert (Hr1 : recorded (S n) (length (deref s1 x1) <=? 2)%nat s1)
          by (rewrite Hx1, Hv; exact Hr')
    end.
    destruct (IH _ _ _ _ Hs Hr1) as [Hrec Hlen].
    rewrite Hx1, Hv in Hrec, Hlen.
    split; [|exact Hlen]. replace (n + S j)%nat with (S n + j)%nat by lia.
    exact Hrec.
Qed.
End trace_facts.

(** The reference libraries and the quadratic oracle keep shapes. *)
Lemma zip_with_float_length op (x y : vec) :
  length (Reference.zip_with_float op x y) = Nat.min (length x) (length y).
Proof.
  revert y. induction x as [|a x IH]; intros [|b y]; cbn; auto.
Qed.

Lemma reference_shapes search clock A b :
  shape_preserving (Reference.libs search clock) (Reference.QuadraticOracle A b).
Proof.
  repeat split; cbn.
  - intros x g. destruct (Reference.shaped A b x) eqn:Hs; [|discriminate].
    intros H. simplify_eq. unfold Reference.shaped in Hs.
    apply andb_prop in Hs as [Hs _]. apply andb_prop in Hs as [HA Hb].
    apply Nat.eqb_eq in HA, Hb.
    rewrite zip_with_float_length. unfold Reference.mat_vec.
    rewrite length_map. lia.
  - intros g d H. unfold Reference.neg in H. simplify_eq. apply length_map.
  - intros a d r. unfold Reference.scale.
    destruct (Reference.trapped _ _); cbn; intros H; simplify_eq.
    apply length_map.
  - intros x y r Hlen. unfold Reference.add.
    destruct x as [|a [|a' x]], y as [|c [|c' y]]; cbn in *; try lia;
      unfold obind; intros H; repeat case_match; simplify_eq; cbn;
      rewrite ?length_map, ?zip_with_float_length; lia.
Qed.

(** C8, as stated, fails on a traced run that ends in the handler: the
    gradient traps at [x_0], the history comes back empty, and although the
    point has a single coordinate there is no key ['x']. *)
Lemma traced_trap_history_has_no_x :
  let st := Reference.empty_state [0%float] in
  let run :=
    gradient_descent (Reference.libs Reference.search_fails Reference.clock)
      Reference.TrappingOracle 0 1e-5 10 (OptValue PyNone) true false 10 st in
  exists m, run.1 = Ok (0%nat, "computational_error", Some m) /\
    ~ (is_Some (m !! "x") <-> (length (deref st 0) <= 2)%nat).
Proof.
  exists ∅. split; [vm_compute; reflexivity|].
  intros [_ H]. cbn in H. destruct H as [? H]; [lia|].
  rewrite lookup_empty in H. discriminate.
Qed.

(** C8, amended. On a traced run that does not end in the handler (the
    message is not ['computational_error']), with arrays that keep their
    shape: the returned point is visited iterate number [j], [j] updates
    having been made; [history['func']] and [history['grad_norm']] both
    have [j + 1] entries; the key ['x'] is present exactly when the point has
    at most two coordinates, and then its list has [j + 1] entries too. *)
Theorem traced_history_lengths
  (L : Libs) (oracle : Oracle) (x_0 : loc) (tolerance : float) (max_iter : Z)
  (line_search_options : ls_options) (display : bool) (fuel : nat)
  (st st' : state) (x : loc) (message : string)
  (h : option (gmap string (list hval))) :
  shape_preserving L oracle ->
  gradient_descent L oracle x_0 tolerance max_iter line_search_options true
    display fuel st = (Ok (x, message, h), st') ->
  message <> "computational_error" ->
  exists tool j a st_j m lf lg,
    get_line_search_tool line_search_options = Ok tool /\
    (j <= Z.to_nat max_iter)%nat /\
    gd_steps L oracle x_0 tolerance tool display fuel (time_time L (ticks st)) j
      (gd_entry true x_0 st) = Some (x, a, st_j) /\
    h = Some m /\
    m !! "func" = Some lf /\ m !! "grad_norm" = Some lg /\
    length lf = S j /\ length lg = S j /\
    (is_Some (m !! "x") <-> (length (deref st x_0) <= 2)%nat) /\
    (forall lx, m !! "x" = Some lx -> length lx = S j).
Proof.
  intros Hshape Hrun Hmsg. rewrite gradient_descent_unfold in Hrun.
  destruct (get_line_search_tool line_search_options) as [tool|e|] eqn:Htool;
    cycle 1.
  { unfold gd_try, bind, lift in Hrun. rewrite Htool in Hrun. cbn in Hrun.
    destruct e; simplify_eq. }
  { unfold gd_try, bind, lift in Hrun. rewrite Htool in Hrun. discriminate. }
  pose proof (gd_try_loop L oracle x_0 tolerance max_iter line_search_options
                true display fuel tool st Htool) as Hloop.
  destruct (gd_entry true x_0 st) as [[xe ae] ste] eqn:Hentry.
  rewrite Hloop in Hrun.
  destruct (gd_loop _ _ _ _ _ _ _ _ _ _ _ _) as [r st2] eqn:Hr.
  destruct r as [[x1 m1]|[]|]; simplify_eq.
  apply gd_loop_return in Hr as (j & a' & st_j & b & Hj & Hs & [He _] & _).
  unfold gd_entry in Hentry. simplify_eq.
  match type of Hs with
  | gd_steps _ _ _ _ _ _ _ _ _ (?xe, _, ?ste) = _ =>
      assert (Hxe : deref ste xe = deref st x_0)
        by (unfold deref at 1; cbn; rewrite list_lookup_middle by done; done);
      assert (Hr0 : recorded 0 (length (deref ste xe) <=? 2)%nat ste)
        by (exists ∅; cbn; destruct (_ <=? _)%nat; cbn; auto)
  end.
  destruct (gd_steps_recorded _ _ _ _ _ _ _ _ Hshape _ _ _ _ _ _ _ _ Hs Hr0)
    as [Hrec Hlen].
  rewrite <- Hlen in Hrec.
  apply (extend_history_recorded _ _ _ _ _ _ _ Hrec) in He.
  rewrite Hlen, Hxe in He. cbn in He.
  destruct He as (m & Hm & _ & Hf & Hg & Hx). unfold entries in *.
  destruct (m !! "func") as [lf|] eqn:Hlf; [|discriminate].
  destruct (m !! "grad_norm") as [lg|] eqn:Hlg; [|discriminate].
  exists tool, j, a', st_j, m, lf, lg. repeat split; auto.
  - intros Hsome. destruct (Nat.leb_spec (length (deref st x_0)) 2) as [|Hgt];
      [assumption|]. rewrite Hx in Hsome. destruct Hsome; discriminate.
  - intros Hle. apply Nat.leb_le in Hle. rewrite Hle in Hx.
    destruct (m !! "x"); [eauto | discriminate].
  - intros lx Hlx. destruct (length (deref st x_0) <=? 2)%nat.
    + rewrite Hlx in Hx. exact Hx.
    + rewrite Hlx in Hx. discriminate.
Qed.

(** ** newton *)

(** [newton] builds the tool, copies [x_0] and returns the copy with
    ['success']: the oracle is never consulted. *)
Lemma newton_returns_copy oracle x_0 tolerance max_iter line_search_options
  trace display st tool :
  get_line_search_tool line_search_options = Ok tool ->
  newton oracle x_0 tolerance max_iter line_search_options trace display st =
  (Ok (length (heap st), "success", if trace then Some ∅ else None),
   {| heap := (heap st ++ [deref st x_0])%list;
      history := if trace then Some ∅ else None;
      ticks := ticks st; errmode := errmode st |}).
Proof.
  intros Ht. unfold newton, bind, lift, set_history, np_copy, read, alloc.
  cbn. rewrite Ht. reflexivity.
Qed.

(** C1. On the quadratic with the singular matrix A = [[0]] and b = [1],
    started at x_0 = [0], [newton] returns a copy of x_0 with the message
    ['success'], not ['newton_direction_error']. *)
Theorem newton_singular_hessian_success :
  let oracle := Reference.QuadraticOracle [[0%float]] [1%float] in
  let st := Reference.empty_state [0%float] in
  let run := newton oracle 0 1e-5 100 (OptValue PyNone) false false st in
  hess oracle [0%float] = Ok [[0%float]] /\
  run.1 = Ok (1%nat, "success", None) /\
  deref run.2 1 = [0%float] /\
  run.1 <> Ok (1%nat, "newton_direction_error", None).
Proof.
  cbn zeta. split; [reflexivity|]. split; [reflexivity|].
  split; [reflexivity|]. discriminate.
Qed.

(** C6. On f(x) = 1/2 x^2 - x (A = [[1]], b = [1]), whose minimizer is
    x = [1], [newton] with the unit step started at x_0 = [0] returns
    ['success'] with the point [0], where the gradient is [-1]. *)
Theorem newton_quadratic_returns_start :
  let oracle := Reference.QuadraticOracle [[1%float]] [1%float] in
  let st := Reference.empty_state [0%float] in
  let unit_step := OptDict (<["method" := PyStr "Constant"]> (<["c" := PyFloat 1]> ∅)) in
  let run := newton oracle 0 1e-5 100 unit_step false false st in
  grad oracle [1%float] = Ok [0%float] /\
  exists x, run.1 = Ok (x, "success", None) /\
    deref run.2 x = [0%float] /\
    grad oracle (deref run.2 x) = Ok [(-1)%float].
Proof.
  cbn zeta. split; [vm_compute; reflexivity|].
  exists 1%nat. repeat split; vm_compute; reflexivity.
Qed.

(** ** Concrete runs *)

Lemma get_line_search_tool_cases_witness :
  get_line_search_tool (OptValue (PyStr "Armijo")) = Raise TypeError.
Proof.
  destruct get_line_search_tool_cases as (_ & _ & _ & _ & _ & H).
  exact (proj1 (H (PyStr "Armijo") eq_refl)).
Defined.

Lemma scenario_run_success :
  scenario_run = (Ok (2%nat, "success", history scenario_run.2), scenario_run.2) /\
  deref scenario_run.2 2 = [0; 1; 2; 3; 4]%float.
Proof. split; vm_compute; reflexivity. Qed.

Lemma gradient_descent_trap_returns_x0_witness :
  trapped_run = (Ok (0%nat, "computational_error", Some ∅), trapped_run.2) /\
  heap (Reference.empty_state [0%float]) `prefix_of` heap trapped_run.2.
Proof.
  pose (L := Reference.libs Reference.search_fails Reference.clock).
  pose (st := Reference.empty_state [0%float]).
  refine (proj1 (gradient_descent_trap_returns_x0 L Reference.TrappingOracle 0 1e-5
            10 (OptValue PyNone) true false 10 st wolfe_defaults _)
            0%nat trapped_run.2 _).
  - reflexivity.
  - exists 1%nat, PyNone, (gd_entry true 0 st).2.
    split; [reflexivity|]. left. split; [vm_compute; lia|].
    vm_compute. reflexivity.
Defined.

Lemma gradient_descent_leaves_x0_witness :
  deref scenario_run.2 0 = [0; 0; 0; 0; 0]%float /\
  (1 <= 2 < length (heap scenario_run.2))%nat.
Proof.
  pose proof (gradient_descent_leaves_x0
    (Reference.libs Reference.search_fails Reference.clock)
    (Reference.QuadraticOracle identity5 [0; 1; 2; 3; 4]%float)
    0 1e-5 10000 armijo_options true false 100
    (Reference.empty_state [0; 0; 0; 0; 0]%float)) as (_ & Hkeep & Hfresh).
  split.
  - apply (Hkeep 0%nat). cbn. lia.
  - apply (Hfresh 2%nat "success" (history scenario_run.2)).
    + exact (f_equal fst (proj1 scenario_run_success)).
    + discriminate.
Defined.

Lemma plane_run_success :
  plane_run = (Ok (2%nat, "success", history plane_run.2), plane_run.2).
Proof. vm_compute. reflexivity. Qed.

Lemma traced_history_lengths_witness :
  exists j m lf lg,
    history plane_run.2 = Some m /\
    m !! "func" = Some lf /\ m !! "grad_norm" = Some lg /\
    length lf = S j /\ length lg = S j /\
    (is_Some (m !! "x") <-> (2 <= 2)%nat) /\
    (forall lx, m !! "x" = Some lx -> length lx = S j).
Proof.
  destruct (traced_history_lengths
    (Reference.libs Reference.search_fails Reference.clock)
    (Reference.QuadraticOracle [[1; 0]; [0; 1]]%float [1; 2]%float)
    0 1e-5 3 armijo_options false 100
    (Reference.empty_state [0; 0]%float) plane_run.2 2%nat "success"
    (history plane_run.2)
    (reference_shapes _ _ _ _) plane_run_success ltac:(discriminate))
    as (tool & j & a & st_j & m & lf & lg & _ & _ & _ & Hm & Hf & Hg & H1 & H2 & H3 & H4).
  exists j, m, lf, lg. auto 10.
Defined.

(** ** Further properties of the tool *)

Lemma init_ok_cases method kwargs tool :
  LineSearchTool.__init__ method kwargs = Ok tool ->
  (method = PyStr "Wolfe" /\
   tool = <["alpha_0" := kwargs_get kwargs "alpha_0" (PyFloat 1.0)]>
            (<["c2" := kwargs_get kwargs "c2" (PyFloat 0.9)]>
               (<["c1" := kwargs_get kwargs "c1" (PyFloat 1e-4)]>
                  (<["_method" := PyStr "Wolfe"]> ∅)))) \/
  (method = PyStr "Armijo" /\
   tool = <["alpha_0" := kwargs_get kwargs "alpha_0" (PyFloat 1.0)]>
            (<["c1" := kwargs_get kwargs "c1" (PyFloat 1e-4)]>
               (<["_method" := PyStr "Armijo"]> ∅))) \/
  (method = PyStr "Constant" /\
   tool = <["c" := kwargs_get kwargs "c" (PyFloat 1.0)]>
            (<["_method" := PyStr "Constant"]> ∅)).
Proof.
  unfold LineSearchTool.__init__, py_eq_str.
  destruct method as [|x|s]; try discriminate.
  destruct (String.eqb s "Wolfe") eqn:Hw.
  { apply String.eqb_eq in Hw as ->. intros H. simplify_eq. auto. }
  destruct (String.eqb s "Armijo") eqn:Ha.
  { apply String.eqb_eq in Ha as ->. intros H. simplify_eq. auto. }
  destruct (String.eqb s "Constant") eqn:Hc; [|discriminate].
  apply String.eqb_eq in Hc as ->. intros H. simplify_eq. auto.
Qed.

(** X1. [from_dict(tool.to_dict())] always succeeds on a constructed tool,
    but the result is a Wolfe tool: the dictionary stores the method under
    ['_method'], which the constructor takes for an ordinary keyword. A
    Wolfe tool comes back unchanged; an Armijo tool keeps [c1] and
    [alpha_0] and gains [c2 = 0.9]; a Constant tool loses its [c]. *)
Theorem from_dict_to_dict_is_wolfe method kwargs tool :
  LineSearchTool.__init__ method kwargs = Ok tool ->
  exists tool',
    from_dict (OptDict (LineSearchTool.to_dict tool)) = Ok tool' /\
    get_line_search_tool (OptDict (LineSearchTool.to_dict tool)) = Ok tool' /\
    tool' !! "_method" = Some (PyStr "Wolfe") /\
    tool' !! "c1" = Some (kwargs_get tool "c1" (PyFloat 1e-4)) /\
    tool' !! "c2" = Some (kwargs_get tool "c2" (PyFloat 0.9)) /\
    tool' !! "alpha_0" = Some (kwargs_get tool "alpha_0" (PyFloat 1.0)) /\
    tool' !! "c" = None /\
    (method = PyStr "Wolfe" -> tool' = tool).
Proof.
  intros Hinit.
  assert (Hm : tool !! "method" = None).
  { apply init_ok_cases in Hinit as [[_ ->]|[[_ ->]|[_ ->]]]; by simplify_map_eq. }
  assert (Hself : tool !! "self" = None).
  { apply init_ok_cases in Hinit as [[_ ->]|[[_ ->]|[_ ->]]]; by simplify_map_eq. }
  assert (Hne : tool <> ∅).
  { intros ->. apply init_ok_cases in Hinit as [[_ H]|[[_ H]|[_ H]]];
      apply (f_equal (fun m : gmap string pyval => m !! "_method")) in H;
      by simplify_map_eq. }
  assert (Hfrom : from_dict (OptDict (LineSearchTool.to_dict tool))
    = Ok (<["alpha_0" := kwargs_get tool "alpha_0" (PyFloat 1.0)]>
            (<["c2" := kwargs_get tool "c2" (PyFloat 0.9)]>
               (<["c1" := kwargs_get tool "c1" (PyFloat 1e-4)]>
                  (<["_method" := PyStr "Wolfe"]> ∅))))).
  { unfold from_dict, LineSearchTool.to_dict, LineSearchTool.call_with_dict.
    rewrite Hself. unfold kwargs_get at 1. rewrite Hm. cbn.
    unfold kwargs_get. rewrite !lookup_delete_ne by discriminate. reflexivity. }
  eexists. split; [exact Hfrom|]. split.
  { unfold get_line_search_tool, options_truthy, LineSearchTool.to_dict.
    rewrite bool_decide_eq_false_2 by exact Hne. exact Hfrom. }
  repeat split; try by simplify_map_eq.
  intros ->. apply init_ok_cases in Hinit as [[_ ->]|[[? _]|[? _]]];
    [|discriminate..].
  unfold kwargs_get. simplify_map_eq. reflexivity.
Qed.

Lemma constant_tool_init :
  LineSearchTool.__init__ (PyStr "Constant") (<["c" := PyFloat 0.5]> ∅)
  = Ok constant_tool.
Proof. reflexivity. Qed.

Lemma from_dict_to_dict_is_wolfe_witness :
  exists tool',
    from_dict (OptDict (LineSearchTool.to_dict constant_tool)) = Ok tool' /\
    tool' !! "_method" = Some (PyStr "Wolfe") /\ tool' !! "c" = None.
Proof.
  destruct (from_dict_to_dict_is_wolfe (PyStr "Constant")
              (<["c" := PyFloat 0.5]> ∅) constant_tool constant_tool_init)
    as (tool' & H1 & _ & H2 & _ & _ & _ & H3 & _).
  exists tool'. auto.
Defined.

Lemma armijo_loop_rejects_forever L self oracle x_k d_k display fuel start :
  (forall k, exists a_k, halvings L k start = Ok a_k /\
     LineSearchTool.armijo_condition L self oracle x_k d_k display a_k = Ok false) ->
  LineSearchTool.armijo_loop L self oracle x_k d_k display fuel start = Diverge.
Proof.
  revert start. induction fuel as [|fuel IH]; intros start H; [reflexivity|].
  cbn. destruct (H 0%nat) as (a0 & Ha0 & Hc0). cbn in Ha0.
  injection Ha0 as Ha0. subst a0. rewrite Hc0. cbn.
  destruct (H 1%nat) as (a1 & Ha1 & _). cbn in Ha1.
  destruct (f_div L start 2) as [a'|?|] eqn:Hd; cbn in Ha1; try discriminate.
  cbn. apply IH. intros k.
  destruct (H (S k)) as (a_k & Ha & Hc). cbn in Ha. rewrite Hd in Ha. eauto.
Qed.

(** X2. The Armijo loop has no bound of its own: when every candidate
    start, start/2, start/4, ... is evaluated and rejected, [line_search]
    does not return, whatever the fuel. *)
Theorem armijo_rejecting_forever_diverges
  (L : Libs) (self : LineSearchTool) (oracle : Oracle) (x_k d_k : vec)
  (previous_alpha : pyval) (display : bool) (start : float) :
  self !! "_method" = Some (PyStr "Armijo") ->
  starting_guess L self previous_alpha start ->
  (forall k, exists a_k, halvings L k start = Ok a_k /\
     LineSearchTool.armijo_condition L self oracle x_k d_k display a_k = Ok false) ->
  forall fuel,
    LineSearchTool.line_search L self oracle x_k d_k previous_alpha display fuel
    = Diverge.
Proof.
  intros Hm Hs Hrej fuel. unfold LineSearchTool.line_search, getattr.
  rewrite Hm. cbn. unfold LineSearchTool.armijo.
  apply armijo_start_guess in Hs. rewrite Hs. cbn.
  rewrite armijo_loop_rejects_forever by exact Hrej. reflexivity.
Qed.

Lemma leb_nan (r : float) : PrimFloat.leb nan r = false.
Proof. rewrite leb_spec. reflexivity. Qed.

Lemma nan_objective_always_rejected search clock a :
  LineSearchTool.armijo_condition (Plain.libs search clock) Reference.armijo_tool
    Plain.NaNOracle [0%float] [1%float] false a = Ok false.
Proof.
  unfold LineSearchTool.armijo_condition, LineSearchTool.armijo_bound,
    LineSearchTool.phi, LineSearchTool.phi_derivative. cbn.
  replace (getattr Reference.armijo_tool "c1") with (Ok (PyFloat 1e-4))
    by (vm_compute; reflexivity).
  cbn. rewrite leb_nan. reflexivity.
Qed.

Lemma plain_halvings_defined search clock k a :
  exists a_k, halvings (Plain.libs search clock) k a = Ok a_k.
Proof.
  revert a. induction k as [|k IH]; intros a; cbn; eauto.
Qed.

Lemma armijo_rejecting_forever_diverges_witness :
  LineSearchTool.line_search (Plain.libs Reference.search_fails Reference.clock)
    Reference.armijo_tool Plain.NaNOracle [0%float] [1%float] PyNone false 1000
  = Diverge.
Proof.
  apply (armijo_rejecting_forever_diverges
           (Plain.libs Reference.search_fails Reference.clock)
           Reference.armijo_tool Plain.NaNOracle [0%float] [1%float] PyNone false
           1%float).
  - reflexivity.
  - reflexivity.
  - intros k.
    destruct (plain_halvings_defined Reference.search_fails Reference.clock k 1%float)
      as [a_k Ha].
    exists a_k. split; [exact Ha | apply nan_objective_always_rejected].
Defined.

Lemma get_line_search_tool_raise o e :
  get_line_search_tool o = Raise e ->
  (e = TypeError /\
   ((exists v, o = OptValue v /\ truthy v = true) \/
    (exists d, o = OptDict d /\ is_Some (d !! "self")))) \/
  (e = ValueError /\ exists d, o = OptDict d /\ d <> ∅ /\ d !! "self" = None /\
     forall s, s ∈ ["Wolfe"; "Armijo"; "Constant"] ->
       kwargs_get d "method" (PyStr "Wolfe") <> PyStr s).
Proof.
  unfold get_line_search_tool.
  destruct (options_truthy o) eqn:Ht; [|discriminate].
  destruct o as [v|d|t]; cbn in *; [|..|discriminate].
  - intros H. simplify_eq. left. eauto.
  - unfold LineSearchTool.call_with_dict.
    destruct (d !! "self") as [w|] eqn:Hself.
    { intros H. simplify_eq. left. split; [reflexivity|]. right. eauto. }
    unfold LineSearchTool.__init__. intros H. right.
    destruct (py_eq_str _ "Wolfe") eqn:Hw; [discriminate|].
    destruct (py_eq_str _ "Armijo") eqn:Ha; [discriminate|].
    destruct (py_eq_str _ "Constant") eqn:Hc; [discriminate|].
    simplify_eq. split; [reflexivity|]. exists d. split; [reflexivity|].
    split; [|split; [exact Hself|]].
    + intros Hd. subst d. rewrite bool_decide_eq_true_2 in Ht by reflexivity.
      discriminate.
    + intros s Hs Heq. rewrite Heq in Hw, Ha, Hc. cbn in Hw, Ha, Hc.
      set_unfold in Hs. destruct Hs as [Hs|[Hs|[Hs|[]]]]; subst s; discriminate.
Qed.

Lemma get_line_search_tool_not_trap o :
  get_line_search_tool o <> Raise FloatingPointError.
Proof.
  intros H. apply get_line_search_tool_raise in H as [[? _]|[? _]]; discriminate.
Qed.

Lemma get_line_search_tool_returns o :
  get_line_search_tool o <> Diverge.
Proof.
  unfold get_line_search_tool.
  destruct (options_truthy o); [|discriminate].
  destruct o as [v|d|t]; cbn; try discriminate.
  unfold LineSearchTool.call_with_dict, LineSearchTool.__init__.
  repeat case_match; discriminate.
Qed.

(** X3. Building the tool never fails to return, and when it raises it is
    a [TypeError] (a truthy value that is neither a dict nor a tool, or a
    dict with a key ['self']) or a [ValueError] (a non-empty dict without
    that key whose method is none of the three). Neither driver catches it:
    the exception leaves [gradient_descent] after the clock has been read
    and the history reset, with no array allocated, and leaves [newton]
    after the history reset. *)
Theorem construction_errors_escape (o : ls_options) :
  get_line_search_tool o <> Diverge /\
  forall e, get_line_search_tool o = Raise e ->
    ((e = TypeError /\
      ((exists v, o = OptValue v /\ truthy v = true) \/
       (exists d, o = OptDict d /\ is_Some (d !! "self")))) \/
     (e = ValueError /\ exists d, o = OptDict d /\ d <> ∅ /\ d !! "self" = None /\
        forall s, s ∈ ["Wolfe"; "Armijo"; "Constant"] ->
          kwargs_get d "method" (PyStr "Wolfe") <> PyStr s)) /\
    (forall L oracle x_0 tolerance max_iter trace display fuel st,
       gradient_descent L oracle x_0 tolerance max_iter o trace display fuel st
       = (Raise e,
          {| heap := heap st; history := if trace then Some ∅ else None;
             ticks := S (ticks st); errmode := FpRaiseAll |})) /\
    (forall oracle x_0 tolerance max_iter trace display st,
       newton oracle x_0 tolerance max_iter o trace display st
       = (Raise e,
          {| heap := heap st; history := if trace then Some ∅ else None;
             ticks := ticks st; errmode := errmode st |})).
Proof.
  split; [apply get_line_search_tool_returns|].
  intros e He. pose proof (get_line_search_tool_raise o e He) as Hcases.
  split; [exact Hcases|]. split; intros.
  - unfold gradient_descent, gd_try, bind, lift. cbn. rewrite He.
    destruct Hcases as [[Hc _]|[Hc _]]; subst e; reflexivity.
  - unfold newton, bind, lift, set_history. cbn. rewrite He. reflexivity.
Qed.

Lemma construction_errors_escape_witness :
  (gradient_descent scenario_libs scenario_oracle 0 1e-5 10
     (OptDict (<["method" := PyStr "Newton"]> ∅)) true false 10 scenario_state).1
  = Raise ValueError.
Proof.
  destruct (construction_errors_escape (OptDict (<["method" := PyStr "Newton"]> ∅)))
    as [_ H].
  destruct (H ValueError ltac:(vm_compute; reflexivity)) as (_ & Hgd & _).
  rewrite Hgd. reflexivity.
Defined.

(** ** Further properties of the drivers *)

Section driver_frames.
Variable L : Libs.
Variable oracle : Oracle.
Variable x_0 : loc.
Variable tolerance : float.
Variable tool : LineSearchTool.
Variable display : bool.
Variable fuel : nat.
Variable start_time : float.

Local Abbreviation extend_history' := (extend_history L oracle start_time).
Local Abbreviation stop_test' := (stop_test L oracle x_0 tolerance).
Local Abbreviation gd_advance' := (gd_advance L oracle tool display fuel).
Local Abbreviation gd_plan' := (gd_plan L oracle tool display fuel).
Local Abbreviation gd_iteration' :=
  (gd_iteration L oracle x_0 tolerance tool display fuel start_time).
Local Abbreviation gd_loop' :=
  (gd_loop L oracle x_0 tolerance tool display fuel start_time).
Local Abbreviation gd_epilogue' := (gd_epilogue L oracle x_0 tolerance start_time).
Local Abbreviation gd_step' :=
  (gd_step L oracle x_0 tolerance tool display fuel start_time).
Local Abbreviation gd_steps' :=
  (gd_steps L oracle x_0 tolerance tool display fuel start_time).
Local Abbreviation test_at' := (test_at L oracle x_0 tolerance start_time).

(** The second half of the body touches the store only to allocate the next
    iterate. *)
Lemma gd_advance_plan x a st :
  gd_advance' x a st =
  match gd_plan' (deref st x) a with
  | Ok (inl message) => (Ok (Return x message), st)
  | Ok (inr (step, v)) =>
      (Ok (Next (length (heap st)) step),
       {| heap := (heap st ++ [v])%list; history := history st;
          ticks := ticks st; errmode := errmode st |})
  | Raise e => (Raise e, st)
  | Diverge => (Diverge, st)
  end.
Proof.
  unfold gd_advance, gd_plan, failed_check, bind, read, lift, ret, alloc, obind.
  destruct (grad oracle (deref st x)) as [g|?|]; try reflexivity.
  destruct (np_neg L g) as [d|?|]; try reflexivity.
  destruct (LineSearchTool.line_search _ _ _ _ _ _ _ _) as [step|?|];
    try reflexivity.
  destruct (np_any_isnan L step) as [[|]|?|]; try reflexivity.
  destruct (np_any_isinf L (deref st x)) as [[|]|?|]; try reflexivity.
  destruct (np_any_isinf L d) as [[|]|?|]; try reflexivity.
  destruct (as_float step) as [s|?|]; try reflexivity.
  destruct (np_scale L s d) as [ad|?|]; try reflexivity.
  destruct (np_add L (deref st x) ad) as [v|?|]; reflexivity.
Qed.

Lemma extend_history_frame x st r st' :
  extend_history' x st = (r, st') ->
  heap st' = heap st /\ errmode st' = errmode st /\
  (history st = None -> st' = st /\ r = Ok tt) /\
  (is_Some (history st) -> is_Some (history st')).
Proof.
  unfold extend_history. destruct (history st) as [h|] eqn:Hh.
  - unfold bind, read, lift, hist_item, hist_append, now, ret. rewrite Hh. cbn.
    intros H. repeat case_match; simplify_eq; cbn;
      (split; [reflexivity|]); (split; [reflexivity|]);
      (split; [discriminate|]); eauto.
  - intros H. simplify_eq. rewrite Hh. repeat split; auto.
Qed.

(** A property of the store that trace records and allocations keep is kept
    by the whole loop, however it ends. *)
Lemma gd_loop_invariant (P : state -> Prop) n x a st r st' :
  (forall x st r st', P st -> extend_history' x st = (r, st') -> P st') ->
  (forall st v, P st ->
     P {| heap := (heap st ++ [v])%list; history := history st;
          ticks := ticks st; errmode := errmode st |}) ->
  gd_loop' n x a st = (r, st') -> P st -> P st'.
Proof.
  intros Hext Halloc. revert x a st.
  induction n as [|n IH]; intros x a st; cbn.
  - unfold gd_epilogue, bind, time_to_stop, ret. intros H HP.
    destruct (extend_history' x st) as [r1 st1] eqn:He.
    pose proof (Hext _ _ _ _ HP He) as HP1.
    destruct r1 as [[]|?|]; simplify_eq; try assumption.
    destruct (stop_test L oracle x_0 tolerance st1 x) as [[|]|?|];
      simplify_eq; assumption.
  - unfold bind. rewrite gd_iteration_unfold. intros H HP.
    destruct (extend_history' x st) as [r1 st1] eqn:He.
    pose proof (Hext _ _ _ _ HP He) as HP1.
    destruct r1 as [[]|?|]; simplify_eq; try assumption.
    destruct (stop_test' st1 x) as [[|]|?|]; unfold ret in H; simplify_eq;
      try assumption.
    rewrite gd_advance_plan in H.
    destruct (gd_plan' (deref st1 x) a) as [[m|[step v]]|?|];
      simplify_eq; try assumption.
    eapply IH; [eassumption|]. apply Halloc. assumption.
Qed.

Lemma gd_steps_invariant (P : state -> Prop) j x a st x' a' st' :
  (forall x st st', P st -> extend_history' x st = (Ok tt, st') -> P st') ->
  (forall st v, P st ->
     P {| heap := (heap st ++ [v])%list; history := history st;
          ticks := ticks st; errmode := errmode st |}) ->
  gd_steps' j (x, a, st) = Some (x', a', st') -> P st -> P st'.
Proof.
  intros Hext Halloc. revert x a st.
  induction j as [|j IH]; intros x a st Hs HP.
  - cbn in Hs. simplify_eq. assumption.
  - rewrite gd_steps_S in Hs.
    destruct (gd_step' (x, a, st)) as [[[x1 a1] st1]|] eqn:Hg; [|discriminate].
    apply gd_step_inv in Hg
      as (st2 & g & d & s & ad & v & [He _] & _ & _ & _ & _ & _ & -> & ->).
    eapply IH; [eassumption|]. apply Halloc. eapply Hext; eassumption.
Qed.

(** An early return with one of the three messages, traced back to the
    iterate at which the check failed. *)
Lemma gd_loop_check_failed n x a st x' message st' :
  message <> "success" -> message <> "iterations_exceeded" ->
  gd_loop' n x a st = (Ok (x', message), st') <->
  exists j a' st_j, (j < n)%nat /\
    gd_steps' j (x, a, st) = Some (x', a', st_j) /\
    test_at' (x', a', st_j) st' false /\
    gd_plan' (deref st' x') a' = Ok (inl message).
Proof.
  intros Hs Hi. split.
  - revert x a st. induction n as [|n IH]; intros x a st; cbn.
    + unfold gd_epilogue, bind, time_to_stop, ret.
      destruct (extend_history' x st) as [[[]|?|] st1]; try discriminate.
      destruct (stop_test L oracle x_0 tolerance st1 x) as [[|]|?|];
        intros H; simplify_eq.
    + unfold bind. rewrite gd_iteration_unfold.
      destruct (extend_history' x st) as [[[]|?|] st1] eqn:He; try discriminate.
      destruct (stop_test' st1 x) as [[|]|?|] eqn:Ht; try discriminate.
      { unfold ret. intros H. simplify_eq. }
      rewrite gd_advance_plan.
      destruct (gd_plan' (deref st1 x) a) as [[m|[step v]]|?|] eqn:Hp;
        try discriminate.
      * unfold ret. intros H. simplify_eq.
        exists 0%nat, a, st. split; [lia|]. split; [reflexivity|].
        split; [split; assumption | exact Hp].
      * intros H. apply IH in H as (j & a' & st_j & Hj & Hst & Hte & Hpl).
        exists (S j), a', st_j. split; [lia|]. split; [|auto].
        rewrite gd_steps_S. unfold gd_step.
        rewrite gd_iteration_unfold, He, Ht, gd_advance_plan, Hp. exact Hst.
  - intros (j & a' & st_j & Hj & Hst & Hte & Hpl).
    rewrite (gd_loop_split _ _ _ _ _ _ _ _ n j x a st x' a' st_j) by (lia || exact Hst).
    destruct (n - j)%nat as [|m] eqn:Hm; [lia|].
    cbn. unfold bind.
    rewrite (gd_iteration_test_false _ _ _ _ _ _ _ _ _ _ _ _ Hte).
    rewrite gd_advance_plan, Hpl. reflexivity.
Qed.
End driver_frames.

Section record_facts.
Variable L : Libs.
Variable oracle : Oracle.
Variable x_0 : loc.
Variable tolerance : float.
Variable tool : LineSearchTool.
Variable display : bool.
Variable fuel : nat.
Variable start_time : float.

Local Abbreviation extend_history' := (extend_history L oracle start_time).
Local Abbreviation stop_test' := (stop_test L oracle x_0 tolerance).
Local Abbreviation gd_plan' := (gd_plan L oracle tool display fuel).
Local Abbreviation gd_loop' :=
  (gd_loop L oracle x_0 tolerance tool display fuel start_time).

(** The store in which the loop ends is the store right after a trace
    record, complete or interrupted. *)
Lemma gd_loop_final_record (P : state -> Prop) n x a st r st' :
  (forall x st st', P st -> extend_history' x st = (Ok tt, st') -> P st') ->
  (forall st v, P st ->
     P {| heap := (heap st ++ [v])%list; history := history st;
          ticks := ticks st; errmode := errmode st |}) ->
  gd_loop' n x a st = (r, st') -> P st ->
  exists x_j st_j r_e,
    P st_j /\ extend_history' x_j st_j = (r_e, st') /\
    forall x' message, r = Ok (x', message) -> x_j = x' /\ r_e = Ok tt.
Proof.
  intros Hext Halloc. revert x a st.
  induction n as [|n IH]; intros x a st; cbn.
  - unfold gd_epilogue, bind, time_to_stop, ret. intros H HP.
    destruct (extend_history' x st) as [r1 st1] eqn:He.
    destruct r1 as [[]|?|]; simplify_eq;
      [|exists x, st; eexists; (split; [exact HP|]); (split; [exact He|]);
        intros; discriminate..].
    destruct (stop_test L oracle x_0 tolerance st1 x) as [[|]|?|];
      simplify_eq; exists x, st, (Ok tt); (split; [exact HP|]);
      (split; [exact He|]); intros; simplify_eq; auto.
  - unfold bind. rewrite gd_iteration_unfold. intros H HP.
    destruct (extend_history' x st) as [r1 st1] eqn:He.
    destruct r1 as [[]|?|]; simplify_eq;
      [|exists x, st; eexists; (split; [exact HP|]); (split; [exact He|]);
        intros; discriminate..].
    destruct (stop_test' st1 x) as [[|]|?|]; unfold ret in H; simplify_eq;
      try (exists x, st, (Ok tt); (split; [exact HP|]);
           (split; [exact He|]); intros; simplify_eq; auto; fail).
    rewrite gd_advance_plan in H.
    destruct (gd_plan' (deref st1 x) a) as [[m|[step v]]|?|];
      simplify_eq;
      try (exists x, st, (Ok tt); (split; [exact HP|]);
           (split; [exact He|]); intros; simplify_eq; auto; fail).
    eapply IH; [eassumption|]. apply Halloc. eapply Hext; eassumption.
Qed.

Lemma full_record_alloc n st v :
  full_record n st ->
  full_record n {| heap := (heap st ++ [v])%list; history := history st;
                   ticks := ticks st; errmode := errmode st |}.
Proof. intros H. exact H. Qed.

Lemma extend_history_full n x st st' :
  full_record n st -> extend_history' x st = (Ok tt, st') ->
  full_record (S n) st'.
Proof.
  unfold extend_history, read, bind.
  generalize (deref st x). intros xv (m & Hm & Ht & Hf & Hg & Hx).
  rewrite Hm. unfold bind, read, lift, hist_item, hist_append, now, ret.
  destruct st as [hp hs tk em]. cbn in Hm. subst hs. cbn.
  destruct (grad oracle xv) as [g|?|]; cbn; try discriminate.
  destruct (func oracle xv) as [f|?|]; cbn; try discriminate.
  destruct (np_norm L g) as [nr|?|]; cbn; try discriminate.
  unfold full_record, entries in *.
  destruct (length xv <=? 2)%nat; cbn; intros H; simplify_eq;
    eexists; (split; [reflexivity|]); simplify_map_eq;
    rewrite ?length_app; cbn; repeat split; try lia; try done.
Qed.

(** Whatever interrupts a record, each list is at most one entry ahead of
    the list that is filled after it. *)
Lemma extend_history_chain n x st r st' :
  full_record n st -> extend_history' x st = (r, st') ->
  exists m, history st' = Some m /\ record_chain m.
Proof.
  unfold extend_history, read, bind.
  generalize (deref st x). intros xv (m & Hm & Ht & Hf & Hg & Hx).
  rewrite Hm. unfold bind, read, lift, hist_item, hist_append, now, ret.
  destruct st as [hp hs tk em]. cbn in Hm. subst hs. cbn.
  unfold record_chain, entries in *.
  destruct (grad oracle xv) as [g|?|]; cbn;
    [|intros H; simplify_eq; eexists; (split; [reflexivity|]); lia..].
  destruct (func oracle xv) as [f|?|]; cbn;
    [|intros H; simplify_eq; eexists; (split; [reflexivity|]); simplify_map_eq;
      rewrite ?length_app; cbn; lia..].
  destruct (np_norm L g) as [nr|?|]; cbn;
    [|intros H; simplify_eq; eexists; (split; [reflexivity|]); simplify_map_eq;
      rewrite ?length_app; cbn; lia..].
  destruct (length xv <=? 2)%nat; cbn; intros H; simplify_eq;
    eexists; (split; [reflexivity|]); simplify_map_eq;
    rewrite ?length_app; cbn; lia.
Qed.

(** The last entries of a completed record are the oracle's values at the
    recorded point, and the point itself when it is kept. *)
Lemma extend_history_last x st st' :
  is_Some (history st) -> extend_history' x st = (Ok tt, st') ->
  exists m f g n,
    history st' = Some m /\
    func oracle (deref st x) = Ok f /\ grad oracle (deref st x) = Ok g /\
    np_norm L g = Ok n /\
    last (entries m "func") = Some (HFloat f) /\
    last (entries m "grad_norm") = Some (HFloat n) /\
    last (entries m "time")
      = Some (HFloat (PrimFloat.sub (time_time L (ticks st)) start_time)) /\
    ((length (deref st x) <= 2)%nat -> last (entries m "x") = Some (HArr x)).
Proof.
  unfold extend_history, read, bind.
  generalize (deref st x). intros xv [m Hm].
  rewrite Hm. unfold bind, read, lift, hist_item, hist_append, now, ret.
  destruct st as [hp hs tk em]. cbn in Hm. subst hs. cbn.
  destruct (grad oracle xv) as [g|?|] eqn:Hgr; cbn; try discriminate.
  destruct (func oracle xv) as [f|?|] eqn:Hfu; cbn; try discriminate.
  destruct (np_norm L g) as [nr|?|] eqn:Hno; cbn; try discriminate.
  unfold entries.
  destruct (length xv <=? 2)%nat eqn:Hsz; cbn; intros H; simplify_eq;
    eexists _, f, g, nr; (split; [reflexivity|]);
    simplify_map_eq; rewrite ?last_snoc; repeat split; try done.
  intros Hle. apply Nat.leb_gt in Hsz. lia.
Qed.
End record_facts.

Section gradient_descent_frames.
Variable L : Libs.
Variable oracle : Oracle.
Variable x_0 : loc.
Variable tolerance : float.
Variable max_iter : Z.
Variable line_search_options : ls_options.
Variable trace : bool.
Variable display : bool.
Variable fuel : nat.

Local Abbreviation gradient_descent' :=
  (gradient_descent L oracle x_0 tolerance max_iter line_search_options trace
     display fuel).
Local Abbreviation entry_loop tool st :=
  (gd_loop L oracle x_0 tolerance tool display fuel (time_time L (ticks st))
     (Z.to_nat max_iter) (length (heap st)) PyNone (gd_entry trace x_0 st).2).

Lemma gradient_descent_of_loop tool st :
  get_line_search_tool line_search_options = Ok tool ->
  gradient_descent' st =
  match entry_loop tool st with
  | (Ok (x, message), st2) => (Ok (x, message, history st2), st2)
  | (Raise FloatingPointError, st2) =>
      (Ok (x_0, "computational_error", history st2), st2)
  | (Raise e, st2) => (Raise e, st2)
  | (Diverge, st2) => (Diverge, st2)
  end.
Proof.
  intros Ht. rewrite gradient_descent_unfold.
  pose proof (gd_try_loop L oracle x_0 tolerance max_iter line_search_options
                trace display fuel tool st Ht) as Hloop.
  unfold gd_entry in *. cbn [snd] in *. rewrite Hloop. reflexivity.
Qed.

(** Every normal return of [gradient_descent] comes from the loop, or from
    the handler after the loop has raised. *)
Lemma gradient_descent_ok st x message h st' :
  gradient_descent' st = (Ok (x, message, h), st') ->
  h = history st' /\
  exists tool, get_line_search_tool line_search_options = Ok tool /\
    ((entry_loop tool st = (Ok (x, message), st') /\
      message <> "computational_error") \/
     (entry_loop tool st = (Raise FloatingPointError, st') /\
      x = x_0 /\ message = "computational_error")).
Proof.
  destruct (get_line_search_tool line_search_options) as [tool|e|] eqn:Ht.
  - rewrite (gradient_descent_of_loop tool st Ht).
    destruct (entry_loop tool st) as [r st2] eqn:Hr.
    destruct r as [[x1 m]|[]|]; intros H; simplify_eq;
      (split; [reflexivity|]); exists tool; (split; [reflexivity|]).
    + left. split; [exact Hr|].
      apply gd_loop_return in Hr as (j & a' & st_j & b & _ & _ & _ & Hm).
      destruct Hm as [[_ Hm]|[(_ & _ & Hm)|(_ & _ & [Hm|[Hm|Hm]])]];
        rewrite Hm; discriminate.
    + right. split; [exact Hr|]. auto.
  - rewrite gradient_descent_unfold. unfold gd_try, bind, lift. rewrite Ht.
    pose proof (get_line_search_tool_raise _ _ Ht) as [[-> _]|[-> _]];
      discriminate.
  - exfalso. exact (get_line_search_tool_returns _ Ht).
Qed.

(** A property of the store that holds after the prologue and that trace
    records and allocations keep holds when [gradient_descent] ends, however
    it ends. *)
Lemma gradient_descent_invariant (P : state -> Prop) st :
  (forall x s r s', P s ->
     extend_history L oracle (time_time L (ticks st)) x s = (r, s') -> P s') ->
  (forall s v, P s ->
     P {| heap := (heap s ++ [v])%list; history := history s;
          ticks := ticks s; errmode := errmode s |}) ->
  P (gd_prologue L trace st).2 ->
  P (gradient_descent' st).2.
Proof.
  intros Hext Halloc HP.
  assert (Hst : (gradient_descent' st).2
                = (gd_try L oracle x_0 tolerance max_iter line_search_options
                     display fuel (time_time L (ticks st))
                     (gd_prologue L trace st).2).2).
  { rewrite gradient_descent_unfold.
    destruct (gd_try _ _ _ _ _ _ _ _ _ _) as [[[x m]|[]|] st2]; reflexivity. }
  rewrite Hst.
  destruct (gd_try _ _ _ _ _ _ _ _ _ _) as [r st2] eqn:Hr. cbn [snd].
  unfold gd_try, bind, lift, np_copy, read, alloc in Hr.
  destruct (get_line_search_tool line_search_options) as [tool|e|];
    simplify_eq; try exact HP.
  eapply gd_loop_invariant; [exact Hext|exact Halloc|exact Hr|].
  apply Halloc. exact HP.
Qed.
End gradient_descent_frames.

Lemma gd_plan_check_failed L oracle tool display fuel xv a message :
  gd_plan L oracle tool display fuel xv a = Ok (inl message) <->
  exists g d step,
    grad oracle xv = Ok g /\ np_neg L g = Ok d /\
    LineSearchTool.line_search L tool oracle xv d a display fuel = Ok step /\
    failed_check L step xv d = Ok (Some message).
Proof.
  unfold gd_plan, obind. split.
  - intros H.
    destruct (grad oracle xv) as [g|?|] eqn:Hg; try discriminate.
    destruct (np_neg L g) as [d|?|] eqn:Hd; try discriminate.
    destruct (LineSearchTool.line_search _ _ _ _ _ _ _ _) as [step|?|] eqn:Hl;
      try discriminate.
    destruct (failed_check L step xv d) as [[m|]|?|] eqn:Hf; try discriminate.
    + simplify_eq. eauto 10.
    + repeat case_match; discriminate.
  - intros (g & d & step & -> & -> & -> & ->). reflexivity.
Qed.

Lemma failed_check_messages L step xv d message :
  failed_check L step xv d = Ok (Some message) ->
  message = "a_k computational_error" \/
  message = "x_k computational_error" \/
  message = "d_k computational_error".
Proof.
  unfold failed_check, obind. intros H. repeat case_match; simplify_eq; auto.
Qed.

(** X4. Once the tool is built, [gradient_descent] returns one of the
    messages ['a_k computational_error'], ['x_k computational_error'],
    ['d_k computational_error'] at [x] exactly when [x] is a visited iterate
    before the last one at which the stopping test fails and, the direction
    and the step having been computed, the first of the three checks that
    fires is this message's: the step is NaN, else the point has an infinite
    coordinate, else the direction has one. The point is returned without
    being updated. *)
Theorem gradient_descent_check_failed
  (L : Libs) (oracle : Oracle) (x_0 : loc) (tolerance : float) (max_iter : Z)
  (line_search_options : ls_options) (trace display : bool) (fuel : nat)
  (st : state) (tool : LineSearchTool) :
  get_line_search_tool line_search_options = Ok tool ->
  let t0 := time_time L (ticks st) in
  let visit j :=
    gd_steps L oracle x_0 tolerance tool display fuel t0 j (gd_entry trace x_0 st) in
  let run :=
    gradient_descent L oracle x_0 tolerance max_iter line_search_options trace
      display fuel st in
  forall x message h st',
    (run = (Ok (x, message, h), st') /\
     In message ["a_k computational_error"; "x_k computational_error";
                 "d_k computational_error"]) <->
    (h = history st' /\
     exists j a st_j g d step, (j < Z.to_nat max_iter)%nat /\
       visit j = Some (x, a, st_j) /\
       test_at L oracle x_0 tolerance t0 (x, a, st_j) st' false /\
       grad oracle (deref st' x) = Ok g /\ np_neg L g = Ok d /\
       LineSearchTool.line_search L tool oracle (deref st' x) d a display fuel
       = Ok step /\
       failed_check L step (deref st' x) d = Ok (Some message)).
Proof.
  intros Htool t0 visit run x message h st'. subst run visit.
  rewrite (gradient_descent_of_loop _ _ _ _ _ _ _ _ _ tool st Htool). fold t0.
  unfold gd_entry. cbn [snd]. split.
  - intros [H Hin].
    assert (Hs : message <> "success")
      by (intros Hm; subst message; cbn in Hin;
          destruct Hin as [?|[?|[?|[]]]]; discriminate).
    assert (Hi : message <> "iterations_exceeded")
      by (intros Hm; subst message; cbn in Hin;
          destruct Hin as [?|[?|[?|[]]]]; discriminate).
    destruct (gd_loop _ _ _ _ _ _ _ _ _ _ _ _) as [r st2] eqn:Hr.
    destruct r as [[x1 m]|[]|]; simplify_eq;
      [|cbn in Hin; destruct Hin as [?|[?|[?|[]]]]; discriminate].
    split; [reflexivity|].
    apply gd_loop_check_failed in Hr as (j & a' & st_j & Hj & Hst & Hte & Hpl);
      [|assumption..].
    apply gd_plan_check_failed in Hpl as (g & d & step & ? & ? & ? & ?).
    exists j, a', st_j, g, d, step. auto 10.
  - intros (-> & j & a & st_j & g & d & step & Hj & Hst & Hte & Hg & Hd & Hl & Hf).
    pose proof (failed_check_messages _ _ _ _ _ Hf) as Hm.
    assert (Hloop : gd_loop L oracle x_0 tolerance tool display fuel t0
              (Z.to_nat max_iter) (length (heap st)) PyNone
              {| heap := (heap st ++ [deref st x_0])%list;
                 history := if trace then Some ∅ else None;
                 ticks := S (ticks st); errmode := FpRaiseAll |}
            = (Ok (x, message), st')).
    { apply gd_loop_check_failed.
      - destruct Hm as [Hm|[Hm|Hm]]; rewrite Hm; discriminate.
      - destruct Hm as [Hm|[Hm|Hm]]; rewrite Hm; discriminate.
      - exists j, a, st_j. split; [exact Hj|]. split; [exact Hst|].
        split; [exact Hte|]. apply gd_plan_check_failed. eauto 10. }
    rewrite Hloop. split; [reflexivity|].
    cbn. destruct Hm as [Hm|[Hm|Hm]]; rewrite Hm; auto.
Qed.

(** X6. With a Wolfe tool, when the search reports failure at a visited
    iterate before the last one and NumPy turns [None] into NaN,
    [gradient_descent] stops there: it returns that iterate, not updated,
    with the message ['a_k computational_error']. *)
Theorem wolfe_failure_ends_descent
  (L : Libs) (oracle : Oracle) (x_0 : loc) (tolerance : float) (max_iter : Z)
  (line_search_options : ls_options) (trace display : bool) (fuel : nat)
  (st : state) (tool : LineSearchTool) (c1 c2 : pyval)
  (j : nat) (x : loc) (a : pyval) (st_j st' : state) (g d : vec)
  (t : wolfe_tuple) :
  get_line_search_tool line_search_options = Ok tool ->
  tool !! "_method" = Some (PyStr "Wolfe") ->
  tool !! "c1" = Some c1 -> tool !! "c2" = Some c2 ->
  (j < Z.to_nat max_iter)%nat ->
  gd_steps L oracle x_0 tolerance tool display fuel (time_time L (ticks st)) j
    (gd_entry trace x_0 st) = Some (x, a, st_j) ->
  test_at L oracle x_0 tolerance (time_time L (ticks st)) (x, a, st_j) st' false ->
  grad oracle (deref st' x) = Ok g -> np_neg L g = Ok d ->
  scalar_search_wolf2 L (func oracle) (grad oracle) (deref st' x) d c1 c2
  = Ok (ObjTuple t) ->
  wt_alpha t = PyNone ->
  np_any_isnan L PyNone = Ok true ->
  gradient_descent L oracle x_0 tolerance max_iter line_search_options trace
    display fuel st
  = (Ok (x, "a_k computational_error", history st'), st').
Proof.
  intros Htool Hm Hc1 Hc2 Hj Hst Hte Hg Hd Hsearch Halpha Hnan.
  rewrite (gradient_descent_of_loop _ _ _ _ _ _ _ _ _ tool st Htool).
  assert (Hloop : gd_loop L oracle x_0 tolerance tool display fuel
            (time_time L (ticks st)) (Z.to_nat max_iter) (length (heap st))
            PyNone (gd_entry trace x_0 st).2
          = (Ok (x, "a_k computational_error"), st')).
  { apply gd_loop_check_failed; [discriminate..|].
    exists j, a, st_j. split; [exact Hj|]. split; [exact Hst|].
    split; [exact Hte|]. apply gd_plan_check_failed.
    exists g, d, PyNone. split; [exact Hg|]. split; [exact Hd|]. split.
    - rewrite <- Halpha.
      apply (wolfe_returns_first_component L tool oracle (deref st' x) d a
               display fuel c1 c2 t Hm Hc1 Hc2 Hsearch).
    - unfold failed_check. rewrite Hnan. reflexivity. }
  rewrite Hloop. reflexivity.
Qed.

Lemma wolfe_failure_ends_descent_witness :
  wolfe_failure_run
  = (Ok (1%nat, "a_k computational_error", history wolfe_failure_run.2),
     wolfe_failure_run.2).
Proof.
  apply (wolfe_failure_ends_descent scenario_libs
           (Reference.QuadraticOracle [[4%float]] [1%float]) 0 1e-5 10
           (OptValue PyNone) false false 10 (Reference.empty_state [0%float])
           wolfe_defaults (PyFloat 1e-4) (PyFloat 0.9) 0 1%nat PyNone
           (gd_entry false 0 (Reference.empty_state [0%float])).2
           wolfe_failure_run.2 [(-1)%float] [1%float]
           {| wt_alpha := PyNone; wt_fc := 0; wt_gc := 0; wt_new_fval := PyNone;
              wt_old_fval := PyNone; wt_new_slope := PyNone |}).
  - reflexivity.
  - reflexivity.
  - reflexivity.
  - reflexivity.
  - vm_compute. lia.
  - reflexivity.
  - split; vm_compute; reflexivity.
  - vm_compute. reflexivity.
  - reflexivity.
  - reflexivity.
  - reflexivity.
  - reflexivity.
Defined.

Lemma gradient_descent_check_failed_witness :
  exists j a st_j g d step, (j < Z.to_nat 10)%nat /\
    gd_steps scenario_libs (Reference.QuadraticOracle [[4%float]] [1%float]) 0 1e-5
      wolfe_defaults false 10 (time_time scenario_libs 0) j
      (gd_entry false 0 (Reference.empty_state [0%float])) = Some (1%nat, a, st_j) /\
    grad (Reference.QuadraticOracle [[4%float]] [1%float])
      (deref wolfe_failure_run.2 1) = Ok g /\
    np_neg scenario_libs g = Ok d /\
    failed_check scenario_libs step (deref wolfe_failure_run.2 1) d
    = Ok (Some "a_k computational_error").
Proof.
  destruct (proj1 (gradient_descent_check_failed scenario_libs
              (Reference.QuadraticOracle [[4%float]] [1%float]) 0 1e-5 10
              (OptValue PyNone) false false 10 (Reference.empty_state [0%float])
              wolfe_defaults eq_refl 1%nat "a_k computational_error"
              (history wolfe_failure_run.2) wolfe_failure_run.2))
    as (_ & j & a & st_j & g & d & step & ? & ? & ? & ? & ? & ? & ?).
  - split; [vm_compute; reflexivity | cbn; auto].
  - exists j, a, st_j, g, d, step. auto 10.
Defined.

(** X7. Without tracing nothing is recorded and the clock is read once:
    however [gradient_descent] ends, the history is [None], also in the
    result of every normal return, the handler's included, and exactly one
    reading of the clock has been taken. *)
Theorem gradient_descent_untraced
  (L : Libs) (oracle : Oracle) (x_0 : loc) (tolerance : float) (max_iter : Z)
  (line_search_options : ls_options) (display : bool) (fuel : nat) (st : state) :
  let run :=
    gradient_descent L oracle x_0 tolerance max_iter line_search_options false
      display fuel st in
  history run.2 = None /\ ticks run.2 = S (ticks st) /\
  forall x message h, run.1 = Ok (x, message, h) -> h = None.
Proof.
  intros run. subst run.
  assert (HP : history (gradient_descent L oracle x_0 tolerance max_iter
                          line_search_options false display fuel st).2 = None /\
               ticks (gradient_descent L oracle x_0 tolerance max_iter
                        line_search_options false display fuel st).2
               = S (ticks st)).
  { apply (gradient_descent_invariant L oracle x_0 tolerance max_iter
             line_search_options false display fuel
             (fun s => history s = None /\ ticks s = S (ticks st))).
    - intros x s r s' [Hh Ht] He.
      apply extend_history_frame in He as (_ & _ & Hnone & _).
      destruct (Hnone Hh) as [-> _]. auto.
    - intros s v [Hh Ht]. auto.
    - split; reflexivity. }
  destruct HP as [Hh Ht]. split; [exact Hh|]. split; [exact Ht|].
  intros x message h Hr.
  destruct (gradient_descent _ _ _ _ _ _ _ _ _ _) as [r st'] eqn:Hrun.
  cbn in Hr, Hh. subst r.
  apply gradient_descent_ok in Hrun as [-> _]. exact Hh.
Qed.

(** X8. [gradient_descent] switches NumPy to raising on floating point
    errors and never switches back: the mode is on however the call ends.
    [newton] leaves the mode and the clock as they were. *)
Theorem gradient_descent_leaves_traps_on
  (L : Libs) (oracle : Oracle) (x_0 : loc) (tolerance : float) (max_iter : Z)
  (line_search_options : ls_options) (trace display : bool) (fuel : nat)
  (st : state) :
  errmode (gradient_descent L oracle x_0 tolerance max_iter line_search_options
             trace display fuel st).2 = FpRaiseAll /\
  errmode (newton oracle x_0 tolerance max_iter line_search_options trace
             display st).2 = errmode st /\
  ticks (newton oracle x_0 tolerance max_iter line_search_options trace
           display st).2 = ticks st.
Proof.
  split.
  - apply (gradient_descent_invariant L oracle x_0 tolerance max_iter
             line_search_options trace display fuel
             (fun s => errmode s = FpRaiseAll)).
    + intros x s r s' Hm He.
      apply extend_history_frame in He as (_ & -> & _). exact Hm.
    + intros s v Hm. exact Hm.
    + reflexivity.
  - unfold newton, bind, lift, set_history, np_copy, read, alloc. cbn.
    destruct (get_line_search_tool line_search_options); cbn; auto.
Qed.

(** X9. The history of a traced run is never out of step by more than the
    record that was being written: on every normal return, the handler's
    included, ['x'] is no longer than ['grad_norm'], ['grad_norm'] no longer
    than ['func'], ['func'] no longer than ['time'], and ['time'] at most one
    entry longer than ['grad_norm']; when the message is not
    ['computational_error'] the three lists have one common, positive
    length. *)
Theorem traced_history_chain
  (L : Libs) (oracle : Oracle) (x_0 : loc) (tolerance : float) (max_iter : Z)
  (line_search_options : ls_options) (display : bool) (fuel : nat)
  (st st' : state) (x : loc) (message : string)
  (h : option (gmap string (list hval))) :
  gradient_descent L oracle x_0 tolerance max_iter line_search_options true
    display fuel st = (Ok (x, message, h), st') ->
  exists m, h = Some m /\ record_chain m /\
    (message <> "computational_error" ->
     length (entries m "time") = length (entries m "func") /\
     length (entries m "func") = length (entries m "grad_norm") /\
     (1 <= length (entries m "grad_norm"))%nat).
Proof.
  intros Hrun. apply gradient_descent_ok in Hrun as (-> & tool & _ & Hloop).
  assert (Hfinal : exists r, gd_loop L oracle x_0 tolerance tool display fuel
            (time_time L (ticks st)) (Z.to_nat max_iter) (length (heap st))
            PyNone (gd_entry true x_0 st).2 = (r, st') /\
            (message <> "computational_error" -> r = Ok (x, message))).
  { destruct Hloop as [[H ?]|(H & _ & ->)]; eexists; (split; [exact H|]);
      [reflexivity | intros Hc; contradiction]. }
  destruct Hfinal as (r & Hr & Hok).
  apply (gd_loop_final_record _ _ _ _ _ _ _ _ (fun s => exists n, full_record n s))
    in Hr as (x_j & st_j & r_e & [n Hn] & He & Hret).
  - destruct (extend_history_chain _ _ _ _ _ _ _ _ Hn He) as (m & Hm & Hchain).
    exists m. split; [exact Hm|]. split; [exact Hchain|].
    intros Hc. destruct (Hret x message (Hok Hc)) as [-> ->].
    destruct (extend_history_full _ _ _ _ _ _ _ Hn He)
      as (m' & Hm' & Ht & Hf & Hg & _).
    rewrite Hm in Hm'. simplify_eq. lia.
  - intros x1 s s' [n Hn] He. exists (S n).
    eapply extend_history_full; eassumption.
  - intros s v [n Hn]. exists n. exact Hn.
  - exists 0%nat, ∅. cbn. unfold entries. rewrite !lookup_empty. cbn.
    repeat split; lia.
Qed.

Lemma traced_history_chain_witness :
  exists m, history interrupted_run.2 = Some m /\ record_chain m /\
    length (entries m "time") = 1%nat /\ length (entries m "func") = 0%nat.
Proof.
  destruct (traced_history_chain scenario_libs ValueTrappingOracle 0 1e-5 10
              (OptValue PyNone) false 10 (Reference.empty_state [1%float])
              interrupted_run.2 0%nat "computational_error"
              (history interrupted_run.2))
    as (m & Hm & Hchain & _).
  - vm_compute. reflexivity.
  - exists m. split; [exact Hm|]. split; [exact Hchain|].
    assert (Hh : history interrupted_run.2
                 = Some (<["func" := []]> (<["time" := [HFloat 1%float]]> ∅)))
      by (vm_compute; reflexivity).
    rewrite Hh in Hm. simplify_eq. split; reflexivity.
Defined.

(** X10. On a traced run that does not end in the handler, the last record
    describes the returned point: the last entries of ['func'] and
    ['grad_norm'] are the oracle's value and the norm of its gradient there,
    the last entry of ['x'] is the returned array itself when it has at most
    two coordinates, and on ['success'] that last gradient norm is within
    the tolerance of the norm of the gradient at [x_0]. *)
Theorem traced_last_record
  (L : Libs) (oracle : Oracle) (x_0 : loc) (tolerance : float) (max_iter : Z)
  (line_search_options : ls_options) (display : bool) (fuel : nat)
  (st st' : state) (x : loc) (message : string)
  (h : option (gmap string (list hval))) :
  gradient_descent L oracle x_0 tolerance max_iter line_search_options true
    display fuel st = (Ok (x, message, h), st') ->
  message <> "computational_error" ->
  exists m f g n,
    h = Some m /\
    func oracle (deref st' x) = Ok f /\ grad oracle (deref st' x) = Ok g /\
    np_norm L g = Ok n /\
    last (entries m "func") = Some (HFloat f) /\
    last (entries m "grad_norm") = Some (HFloat n) /\
    ((length (deref st' x) <= 2)%nat -> last (entries m "x") = Some (HArr x)) /\
    (message = "success" ->
     exists g0 n0 bound,
       grad oracle (deref st' x_0) = Ok g0 /\ np_norm L g0 = Ok n0 /\
       f_mul L tolerance n0 = Ok bound /\ f_le L n bound = Ok true).
Proof.
  intros Hrun Hmsg.
  apply gradient_descent_ok in Hrun as (-> & tool & _ & [[Hloop _]|(_ & _ & ?)]);
    [|contradiction].
  apply gd_loop_return in Hloop as (j & a' & st_j & b & _ & Hs & [He Ht] & Hm).
  assert (Hsome : is_Some (history st_j)).
  { apply (gd_steps_invariant _ _ _ _ _ _ _ _ (fun s => is_Some (history s)))
      in Hs; [exact Hs|..].
    - intros x1 s s' Hh He'. apply extend_history_frame in He' as (_ & _ & _ & H).
      auto.
    - intros s v Hh. exact Hh.
    - cbn. eauto. }
  pose proof (extend_history_heap _ _ _ _ _ _ _ He) as Hheap.
  assert (Hd : deref st' x = deref st_j x) by (unfold deref; rewrite Hheap; done).
  destruct (extend_history_last _ _ _ _ _ _ Hsome He)
    as (m & f & g & n & Hh & Hf & Hg & Hn & Hlf & Hlg & _ & Hlx).
  rewrite <- Hd in Hf, Hg, Hlx.
  exists m, f, g, n. repeat (split; [assumption|]).
  intros ->.
  destruct Hm as [[-> _]|[(_ & _ & ?)|(_ & _ & [?|[?|?]])]]; try discriminate.
  unfold stop_test, obind in Ht.
  destruct (grad oracle (deref st' x_0)) as [g0|?|] eqn:Hg0; try discriminate.
  rewrite Hg, Hn in Ht.
  destruct (np_norm L g0) as [n0|?|] eqn:Hn0; try discriminate.
  destruct (f_mul L tolerance n0) as [bound|?|] eqn:Hb; try discriminate.
  exists g0, n0, bound. auto.
Qed.

Lemma traced_last_record_witness :
  exists m n,
    history plane_run.2 = Some m /\
    last (entries m "grad_norm") = Some (HFloat n) /\
    last (entries m "x") = Some (HArr 2).
Proof.
  destruct (traced_last_record scenario_libs
              (Reference.QuadraticOracle [[1; 0]; [0; 1]]%float [1; 2]%float)
              0 1e-5 3 armijo_options false 100
              (Reference.empty_state [0; 0]%float) plane_run.2 2%nat "success"
              (history plane_run.2) plane_run_success ltac:(discriminate))
    as (m & f & g & n & Hm & _ & _ & _ & _ & Hn & Hx & _).
  exists m, n. split; [exact Hm|]. split; [exact Hn|].
  apply Hx. vm_compute. lia.
Defined.

(** X11. With [max_iter] zero or negative no step is taken: a normal return
    of the loop hands back the copy of [x_0], which is the only array
    allocated, with ['success'] or ['iterations_exceeded'] according to the
    test at the start. *)
Theorem gradient_descent_no_iterations
  (L : Libs) (oracle : Oracle) (x_0 : loc) (tolerance : float) (max_iter : Z)
  (line_search_options : ls_options) (trace display : bool) (fuel : nat)
  (st st' : state) (x : loc) (message : string)
  (h : option (gmap string (list hval))) :
  (max_iter <= 0)%Z ->
  gradient_descent L oracle x_0 tolerance max_iter line_search_options trace
    display fuel st = (Ok (x, message, h), st') ->
  message <> "computational_error" ->
  x = length (heap st) /\
  heap st' = (heap st ++ [deref st x_0])%list /\
  deref st' x = deref st x_0 /\
  exists b,
    stop_test L oracle x_0 tolerance st' x = Ok b /\
    message = (if b then "success" else "iterations_exceeded").
Proof.
  intros Hmax Hrun Hmsg.
  apply gradient_descent_ok in Hrun as (-> & tool & _ & [[Hloop _]|(_ & _ & ?)]);
    [|contradiction].
  replace (Z.to_nat max_iter) with 0%nat in Hloop by lia.
  cbn in Hloop. unfold gd_epilogue, bind, time_to_stop, ret in Hloop.
  destruct (extend_history _ _ _ _ _) as [[[]|?|] st1] eqn:He; try discriminate.
  pose proof (extend_history_heap _ _ _ _ _ _ _ He) as Hheap. cbn in Hheap.
  destruct (stop_test L oracle x_0 tolerance st1 (length (heap st)))
    as [b|?|] eqn:Ht; try discriminate.
  assert (Heq : x = length (heap st) /\ st' = st1 /\
                message = (if b then "success" else "iterations_exceeded"))
    by (destruct b; simplify_eq; auto).
  destruct Heq as (-> & -> & ->).
  split; [reflexivity|]. split; [exact Hheap|]. split.
  - unfold deref at 1. rewrite Hheap, list_lookup_middle by done. done.
  - exists b. auto.
Qed.

Lemma gradient_descent_no_iterations_witness :
  exists b,
    stop_test scenario_libs scenario_oracle 0 1e-5
      (gradient_descent scenario_libs scenario_oracle 0 1e-5 (-3) armijo_options
         false false 100 scenario_state).2 1 = Ok b /\
    "iterations_exceeded" = (if b then "success" else "iterations_exceeded").
Proof.
  destruct (gradient_descent_no_iterations scenario_libs scenario_oracle 0 1e-5
              (-3) armijo_options false false 100 scenario_state
              (gradient_descent scenario_libs scenario_oracle 0 1e-5 (-3)
                 armijo_options false false 100 scenario_state).2
              1%nat "iterations_exceeded" None)
    as (_ & _ & _ & b & Hb & Hm).
  - lia.
  - vm_compute. reflexivity.
  - discriminate.
  - exists b. auto.
Defined.

(** X12. The constructor reads only the keywords ['c1'], ['c2'],
    ['alpha_0'] and ['c']: two keyword dictionaries that agree on them give
    the same outcome, so a misspelt option is ignored without notice and
    the default is used; and the only exception it raises is [ValueError],
    exactly when the method is none of the three names. *)
Theorem init_reads_only_its_keywords (method : pyval) (kw1 kw2 : gmap string pyval) :
  (forall key, In key ["c1"; "c2"; "alpha_0"; "c"] -> kw1 !! key = kw2 !! key) ->
  LineSearchTool.__init__ method kw1 = LineSearchTool.__init__ method kw2 /\
  LineSearchTool.__init__ method kw1 <> Diverge /\
  (forall e, LineSearchTool.__init__ method kw1 = Raise e ->
     e = ValueError /\
     forall s, In s ["Wolfe"; "Armijo"; "Constant"] -> method <> PyStr s) /\
  ((forall s, In s ["Wolfe"; "Armijo"; "Constant"] -> method <> PyStr s) ->
   LineSearchTool.__init__ method kw1 = Raise ValueError).
Proof.
  intros Hagree.
  assert (H1 := Hagree "c1" ltac:(cbn; auto)).
  assert (H2 := Hagree "c2" ltac:(cbn; auto)).
  assert (H3 := Hagree "alpha_0" ltac:(cbn; auto)).
  assert (H4 := Hagree "c" ltac:(cbn; auto)).
  unfold LineSearchTool.__init__, kwargs_get. rewrite H1, H2, H3, H4.
  split; [reflexivity|].
  destruct (py_eq_str method "Wolfe") eqn:Hw.
  { split; [discriminate|]. split; [discriminate|]. intros Hno. exfalso.
    destruct method as [| |s]; try discriminate. cbn in Hw.
    apply String.eqb_eq in Hw. subst s. apply (Hno "Wolfe"); cbn; auto. }
  destruct (py_eq_str method "Armijo") eqn:Ha.
  { split; [discriminate|]. split; [discriminate|]. intros Hno. exfalso.
    destruct method as [| |s]; try discriminate. cbn in Ha.
    apply String.eqb_eq in Ha. subst s. apply (Hno "Armijo"); cbn; auto. }
  destruct (py_eq_str method "Constant") eqn:Hc.
  { split; [discriminate|]. split; [discriminate|]. intros Hno. exfalso.
    destruct method as [| |s]; try discriminate. cbn in Hc.
    apply String.eqb_eq in Hc. subst s. apply (Hno "Constant"); cbn; auto. }
  split; [discriminate|]. split; [|reflexivity].
  intros e He. simplify_eq. split; [reflexivity|].
  intros s Hs Hm. subst method. cbn in Hw, Ha, Hc.
  cbn in Hs. destruct Hs as [Hs|[Hs|[Hs|[]]]]; subst s; discriminate.
Qed.

Lemma init_reads_only_its_keywords_witness :
  LineSearchTool.__init__ (PyStr "Armijo") (<["alpha0" := PyFloat 0.5]> ∅)
  = LineSearchTool.__init__ (PyStr "Armijo") ∅.
Proof.
  apply (init_reads_only_its_keywords (PyStr "Armijo")
           (<["alpha0" := PyFloat 0.5]> ∅) ∅).
  intros key Hk. cbn in Hk.
  destruct Hk as [Hk|[Hk|[Hk|[Hk|[]]]]]; subst key; reflexivity.
Defined.

(** X13. The result surface of the drivers: [gradient_descent] never lets a
    [FloatingPointError] out, its message is always one of ['success'],
    ['iterations_exceeded'], ['computational_error'] and the three check
    messages, never ['newton_direction_error']; and the only message of
    [newton] is ['success']. *)
Theorem driver_messages
  (L : Libs) (oracle : Oracle) (x_0 : loc) (tolerance : float) (max_iter : Z)
  (line_search_options : ls_options) (trace display : bool) (fuel : nat)
  (st : state) :
  (gradient_descent L oracle x_0 tolerance max_iter line_search_options trace
     display fuel st).1 <> Raise FloatingPointError /\
  (forall x message h,
     (gradient_descent L oracle x_0 tolerance max_iter line_search_options trace
        display fuel st).1 = Ok (x, message, h) ->
     In message ["success"; "iterations_exceeded"; "computational_error";
                 "a_k computational_error"; "x_k computational_error";
                 "d_k computational_error"]) /\
  (forall x message h,
     (newton oracle x_0 tolerance max_iter line_search_options trace display st).1
     = Ok (x, message, h) -> message = "success").
Proof.
  split; [|split].
  - rewrite gradient_descent_unfold.
    destruct (gd_try _ _ _ _ _ _ _ _ _ _) as [[[x m]|[]|] st2]; discriminate.
  - intros x message h Hr.
    destruct (gradient_descent _ _ _ _ _ _ _ _ _ _) as [r st'] eqn:Hrun.
    cbn in Hr. subst r.
    apply gradient_descent_ok in Hrun as (_ & tool & _ & [[Hloop _]|(_ & _ & ->)]);
      [|cbn; auto].
    apply gd_loop_return in Hloop as (j & a' & st_j & b & _ & _ & _ & Hm).
    cbn. destruct Hm as [[_ Hm]|[(_ & _ & Hm)|(_ & _ & [Hm|[Hm|Hm]])]];
      rewrite Hm; auto 10.
  - intros x message h. unfold newton, bind, lift, set_history, np_copy, read, alloc.
    cbn. destruct (get_line_search_tool line_search_options); cbn;
      intros H; simplify_eq. reflexivity.
Qed.

Lemma gradient_descent_untraced_witness :
  history wolfe_failure_run.2 = None /\ ticks wolfe_failure_run.2 = 1%nat.
Proof.
  destruct (gradient_descent_untraced scenario_libs
              (Reference.QuadraticOracle [[4%float]] [1%float]) 0 1e-5 10
              (OptValue PyNone) false 10 (Reference.empty_state [0%float]))
    as (Hh & Ht & _).
  split; [exact Hh | exact Ht].
Defined.

Lemma driver_messages_witness :
  In "success" ["success"; "iterations_exceeded"; "computational_error";
                "a_k computational_error"; "x_k computational_error";
                "d_k computational_error"].
Proof.
  destruct (driver_messages scenario_libs scenario_oracle 0 1e-5 10000
              armijo_options true false 100 scenario_state) as (_ & H & _).
  apply (H 2%nat "success" (history scenario_run.2)).
  exact (f_equal fst (proj1 scenario_run_success)).
Defined.

(** ** The stopping test, from the oracle *)

Lemma stop_test_relative L oracle x_0 tolerance s x b :
  stop_test L oracle x_0 tolerance s x = Ok b <->
  relative_test L oracle tolerance (deref s x_0) (deref s x) b.
Proof.
  unfold stop_test, relative_test, obind. split.
  - destruct (grad oracle (deref s x_0)) as [g0|?|] eqn:Hg0; try discriminate.
    destruct (grad oracle (deref s x)) as [g|?|] eqn:Hg; try discriminate.
    destruct (np_norm L g) as [nk|?|] eqn:Hnk; try discriminate.
    destruct (np_norm L g0) as [n0|?|] eqn:Hn0; try discriminate.
    destruct (f_mul L tolerance n0) as [bound|?|] eqn:Hb; try discriminate.
    intros Hle. exists g0, g, nk, n0, bound. auto 10.
  - intros (g0 & g & nk & n0 & bound & Hg0 & Hg & Hnk & Hn0 & Hb & Hle).
    rewrite Hg0, Hg, Hnk, Hn0, Hb. exact Hle.
Qed.

(** At every visited iterate the caller's starting point still has the
    contents it had at entry. *)
Lemma visited_keeps_x0 L oracle x_0 tolerance tool display fuel trace st
  j x a st_j r st' :
  (x_0 < length (heap st))%nat ->
  gd_steps L oracle x_0 tolerance tool display fuel (time_time L (ticks st)) j
    (gd_entry trace x_0 st) = Some (x, a, st_j) ->
  extend_history L oracle (time_time L (ticks st)) x st_j = (r, st') ->
  deref st' x_0 = deref st x_0.
Proof.
  intros Hx0 Hs He.
  apply (gd_steps_invariant _ _ _ _ _ _ _ _ (fun s => heap st `prefix_of` heap s))
    in Hs.
  - apply extend_history_heap in He. apply prefix_deref; [|exact Hx0].
    rewrite He. exact Hs.
  - intros x1 s s' Hp He'. apply extend_history_heap in He'. rewrite He'. exact Hp.
  - intros s v Hp. cbn. etrans; [exact Hp|]. by apply prefix_app_r.
  - cbn. by apply prefix_app_r.
Qed.

(** Without tracing the record at a visited iterate is a no-op. *)
Lemma untraced_visit_records L oracle x_0 tolerance tool display fuel st
  j x a st_j :
  gd_steps L oracle x_0 tolerance tool display fuel (time_time L (ticks st)) j
    (gd_entry false x_0 st) = Some (x, a, st_j) ->
  extend_history L oracle (time_time L (ticks st)) x st_j = (Ok tt, st_j).
Proof.
  intros Hs.
  apply (gd_steps_invariant _ _ _ _ _ _ _ _ (fun s => history s = None)) in Hs.
  - apply extend_history_untraced. exact Hs.
  - intros x1 s s' Hh He. apply extend_history_frame in He as (_ & _ & Hn & _).
    destruct (Hn Hh) as [-> _]. exact Hh.
  - intros s v Hh. exact Hh.
  - reflexivity.
Qed.

(** C2, as stated, fails on a traced run: started at a stationary point of
    an objective whose value traps, the relative test holds at the first
    visited iterate, and yet the run ends with ['computational_error'],
    because the trace record is written before the test is taken. *)
Lemma traced_run_misses_success :
  let st := Reference.empty_state [0%float] in
  relative_test scenario_libs ValueTrappingOracle 1e-5 (deref st 0)
    (deref (gd_entry true 0 st).2 1) true /\
  gd_steps scenario_libs ValueTrappingOracle 0 1e-5 wolfe_defaults false 10
    (time_time scenario_libs 0) 0 (gd_entry true 0 st)
  = Some (1%nat, PyNone, (gd_entry true 0 st).2) /\
  stationary_trapped_run.1
  = Ok (0%nat, "computational_error", history stationary_trapped_run.2) /\
  stationary_trapped_run.1
  <> Ok (1%nat, "success", history stationary_trapped_run.2).
Proof.
  cbn zeta. split; [|split; [reflexivity|split]].
  - apply (stop_test_relative scenario_libs ValueTrappingOracle 0 1e-5
             (gd_entry true 0 (Reference.empty_state [0%float])).2 1 true).
    vm_compute. reflexivity.
  - vm_compute. reflexivity.
  - vm_compute. discriminate.
Qed.

(** C2, amended. Once the tool is built, for a starting point that exists
    in the store: [gradient_descent] returns ['success'] at [x] exactly when
    [x] is a visited iterate, with index at most [max_iter] (the last index
    being the re-check after the loop), at which the trace record is written
    without an exception and the relative test
    norm(grad f(x)) <= tolerance * norm(grad f(x_0)), taken against the
    contents [x_0] had at entry, comes out true; it returns
    ['iterations_exceeded'] exactly when iterate number [max_iter] is
    visited, its record is written and the test comes out false. Without
    tracing, writing the record never fails. *)
Theorem gradient_descent_success_relative_test
  (L : Libs) (oracle : Oracle) (x_0 : loc) (tolerance : float) (max_iter : Z)
  (line_search_options : ls_options) (trace display : bool) (fuel : nat)
  (st : state) (tool : LineSearchTool) :
  get_line_search_tool line_search_options = Ok tool ->
  (x_0 < length (heap st))%nat ->
  let t0 := time_time L (ticks st) in
  let visit j :=
    gd_steps L oracle x_0 tolerance tool display fuel t0 j (gd_entry trace x_0 st) in
  let run :=
    gradient_descent L oracle x_0 tolerance max_iter line_search_options trace
      display fuel st in
  (forall x h st',
     run = (Ok (x, "success", h), st') <->
     h = history st' /\
     exists j a st_j, (j <= Z.to_nat max_iter)%nat /\
       visit j = Some (x, a, st_j) /\
       extend_history L oracle t0 x st_j = (Ok tt, st') /\
       relative_test L oracle tolerance (deref st x_0) (deref st' x) true) /\
  (forall x h st',
     run = (Ok (x, "iterations_exceeded", h), st') <->
     h = history st' /\
     exists a st_j,
       visit (Z.to_nat max_iter) = Some (x, a, st_j) /\
       extend_history L oracle t0 x st_j = (Ok tt, st') /\
       relative_test L oracle tolerance (deref st x_0) (deref st' x) false) /\
  (trace = false ->
   forall j x a st_j, visit j = Some (x, a, st_j) ->
     extend_history L oracle t0 x st_j = (Ok tt, st_j)).
Proof.
  intros Htool Hx0 t0 visit run. subst run visit.
  destruct (gradient_descent_success_iff L oracle x_0 tolerance max_iter
              line_search_options trace display fuel st tool Htool) as [Hs He].
  fold t0 in Hs, He.
  assert (Htest : forall j x a st_j st' b,
            gd_steps L oracle x_0 tolerance tool display fuel t0 j
              (gd_entry trace x_0 st) = Some (x, a, st_j) ->
            (test_at L oracle x_0 tolerance t0 (x, a, st_j) st' b <->
             extend_history L oracle t0 x st_j = (Ok tt, st') /\
             relative_test L oracle tolerance (deref st x_0) (deref st' x) b)).
  { intros j x a st_j st' b Hv. unfold test_at. split.
    - intros [Hext Hst]. split; [exact Hext|].
      apply stop_test_relative in Hst.
      rewrite (visited_keeps_x0 _ _ _ _ _ _ _ _ _ _ _ _ _ _ _ Hx0 Hv Hext) in Hst.
      exact Hst.
    - intros [Hext Hrel]. split; [exact Hext|].
      apply stop_test_relative.
      rewrite (visited_keeps_x0 _ _ _ _ _ _ _ _ _ _ _ _ _ _ _ Hx0 Hv Hext).
      exact Hrel. }
  split; [|split].
  - intros x h st'. rewrite Hs. split.
    + intros (Hh & j & a & st_j & Hj & Hv & Ht). split; [exact Hh|].
      exists j, a, st_j. split; [exact Hj|]. split; [exact Hv|].
      apply (Htest j x a st_j st' true Hv). exact Ht.
    + intros (Hh & j & a & st_j & Hj & Hv & Hext & Hrel). split; [exact Hh|].
      exists j, a, st_j. split; [exact Hj|]. split; [exact Hv|].
      apply (Htest j x a st_j st' true Hv). auto.
  - intros x h st'. rewrite He. split.
    + intros (Hh & a & st_j & Hv & Ht). split; [exact Hh|].
      exists a, st_j. split; [exact Hv|].
      apply (Htest _ x a st_j st' false Hv). exact Ht.
    + intros (Hh & a & st_j & Hv & Hext & Hrel). split; [exact Hh|].
      exists a, st_j. split; [exact Hv|].
      apply (Htest _ x a st_j st' false Hv). auto.
  - intros Htr j x a st_j. subst trace. apply untraced_visit_records.
Qed.

Lemma gradient_descent_success_relative_test_witness :
  exists j a st_j, (j <= Z.to_nat 10000)%nat /\
    gd_steps scenario_libs scenario_oracle 0 1e-5 Reference.armijo_tool false 100
      (time_time scenario_libs 0) j (gd_entry true 0 scenario_state)
    = Some (2%nat, a, st_j) /\
    relative_test scenario_libs scenario_oracle 1e-5 (deref scenario_state 0)
      (deref scenario_run.2 2) true.
Proof.
  destruct (proj1 (proj1 (gradient_descent_success_relative_test
              scenario_libs scenario_oracle 0 1e-5 10000 armijo_options true
              false 100 scenario_state Reference.armijo_tool
              ltac:(vm_compute; reflexivity) ltac:(vm_compute; lia))
              2%nat (history scenario_run.2) scenario_run.2)
            (proj1 scenario_run_success))
    as (_ & j & a & st_j & Hj & Hv & _ & Hrel).
  exists j, a, st_j. auto.
Defined.
